(** * The comparison engine of [src/commands/compare.js]

    A shallow embedding of [compareQualityData], [compareQualityGate],
    [compareMeasures], [compareIssues] and [generateSummary], with the
    properties the specification states about them, followed by the report
    generators of [src/commands/report.js], the formatter of
    [src/utils/formatter.js], [Storage.loadData] and the three commands
    [compareData], [generateReport] and [fetchData], with further
    properties read off the code.

    Conventions of the embedding.
    - A JavaScript object used as a dictionary ([fromObj], [toObj],
      [changes], [fromCounts], [toCounts]) is a [gmap string _] holding its
      own string-keyed properties; reading a key that was never written
      yields [undefined].  This is what a plain object does for every
      key but the names of the members of [Object.prototype]
      ([prototypeNames] below): reading such a name yields the inherited
      member, and writing a string to [__proto__] stores nothing.  A
      property whose truth depends on such a name excludes it by a
      hypothesis; where the code then throws, or prints the inherited
      member, the embedding does so too ([groupInto], [groupIssue],
      [textOf]).  The order in which
      [Object.keys], [Object.values] and [Object.entries] enumerate is
      that of [map_to_list], not the insertion order: every statement
      below that involves it is stated up to permutation.
    - A property that may be missing ([measure.value], [gate.status],
      [issue.severity], ...) is an [option string]: [None] is [undefined].
    - Strings are ASCII strings.
    - Measure values are IEEE 754 binary64 numbers ([spec_float] at
      precision 53); issue counts are array lengths and sums of five of
      them, which binary64 represents exactly, and are integers in [Z]. *)

From Stdlib Require Import ZArith String Ascii List.
From Stdlib Require Import SpecFloat.
From stdpp Require Import gmap strings list fin_maps pretty.

Local Open Scope Z_scope.
Local Open Scope string_scope.

(** ** JavaScript numbers *)

Module Num.

Definition prec : Z := 53.
Definition emax : Z := 1024.

Definition zero : spec_float := S754_zero false.
Definition nan : spec_float := S754_nan.
Definition infinity (neg : bool) : spec_float := S754_infinity neg.

Definition sub (x y : spec_float) : spec_float := SFsub prec emax x y.
Definition ltb (x y : spec_float) : bool := SFltb x y.
Definition abs (x : spec_float) : spec_float := SFabs x.

(** [ToBoolean] on a number: [NaN], [+0] and [-0] are falsy. *)
Definition truthy (x : spec_float) : bool :=
  match x with
  | S754_nan | S754_zero _ => false
  | _ => true
  end.

(** [x || y] on numbers. *)
Definition or (x y : spec_float) : spec_float :=
  if truthy x then x else y.

(** The binary64 number nearest to [m * 10^e] (ties to even), for an
    integer [m >= 0] with sign [neg]. *)
Definition of_decimal (neg : bool) (m : N) (e : Z) : spec_float :=
  match m with
  | N0 => S754_zero neg
  | Npos p =>
      match e with
      | Zneg k =>
          let '(q, e', l) :=
            SFdiv_core_binary prec emax (Zpos p) 0 (Z.pow 10 (Zpos k)) 0 in
          binary_round_aux prec emax neg q e' l
      | _ => binary_round prec emax neg (p * Z.to_pos (Z.pow 10 e))%positive 0
      end
  end.

Definition of_Z (z : Z) : spec_float := binary_normalize prec emax z 0 false.

End Num.

(** ** [parseFloat] *)

Module ParseFloat.

Definition is_digit (c : ascii) : bool :=
  let n := nat_of_ascii c in (48 <=? n)%nat && (n <=? 57)%nat.

Definition digit_val (c : ascii) : N := N.of_nat (nat_of_ascii c - 48).

(** [WhiteSpace] and [LineTerminator] within ASCII: TAB, LF, VT, FF, CR, SP. *)
Definition is_space (c : ascii) : bool :=
  let n := nat_of_ascii c in
  ((9 <=? n)%nat && (n <=? 13)%nat) || (n =? 32)%nat.

Fixpoint trim_start (s : string) : string :=
  match s with
  | String c s' => if is_space c then trim_start s' else s
  | EmptyString => s
  end.

(** Reads the longest run of decimal digits at the head of [s]: the
    accumulated value, the number of digits read and the rest. *)
Fixpoint digits (acc : N) (n : nat) (s : string) : N * nat * string :=
  match s with
  | String c s' =>
      if is_digit c then digits (acc * 10 + digit_val c)%N (S n) s'
      else (acc, n, s)
  | EmptyString => (acc, n, s)
  end.

(** [ExponentPart]: [e] or [E], an optional sign and at least one digit;
    [0] when the text at [s] is no exponent part. *)
Definition exponent (s : string) : Z :=
  match s with
  | String c s' =>
      if (c =? "e")%char || (c =? "E")%char then
        match s' with
        | String "-" s'' =>
            let '(v, n, _) := digits 0 0 s'' in
            match n with O => 0 | _ => - Z.of_N v end
        | String "+" s'' =>
            let '(v, n, _) := digits 0 0 s'' in
            match n with O => 0 | _ => Z.of_N v end
        | _ =>
            let '(v, n, _) := digits 0 0 s' in
            match n with O => 0 | _ => Z.of_N v end
        end
      else 0
  | EmptyString => 0
  end.

(** [StrUnsignedDecimalLiteral] at the head of [s], with sign [neg]. *)
Definition unsigned_literal (neg : bool) (s : string) : spec_float :=
  if String.prefix "Infinity" s then Num.infinity neg
  else
    let '(ip, ni, r) := digits 0 0 s in
    match r with
    | String "." r' =>
        let '(m, nf, r'') := digits ip 0 r' in
        match ni, nf with
        | O, O => Num.nan
        | _, _ => Num.of_decimal neg m (exponent r'' - Z.of_nat nf)
        end
    | _ =>
        match ni with
        | O => Num.nan
        | _ => Num.of_decimal neg ip (exponent r)
        end
    end.

(** [parseFloat] on a string: leading white space is skipped, the
    longest prefix that is a [StrDecimalLiteral] is converted, and
    [NaN] is returned when there is none. *)
Definition parse_string (s : string) : spec_float :=
  match trim_start s with
  | String "-" r => unsigned_literal true r
  | String "+" r => unsigned_literal false r
  | r => unsigned_literal false r
  end.

(** [ToString] of a possibly-missing string. *)
Definition to_string (v : option string) : string :=
  match v with
  | Some s => s
  | None => "undefined"
  end.

End ParseFloat.

Definition parseFloat (v : option string) : spec_float :=
  ParseFloat.parse_string (ParseFloat.to_string v).

(** ** Values and dictionaries *)

(** [v || d] where [v] is a string or [undefined]: [undefined] and the
    empty string are falsy. *)
Definition or_string (v : option string) (d : string) : string :=
  match v with
  | None | Some EmptyString => d
  | Some s => s
  end.

(** [v || 0] where [v] is a count or [undefined]. *)
Definition or_zero (v : option Z) : Z :=
  match v with
  | Some n => if (n =? 0)%Z then 0 else n
  | None => 0
  end.

(** [String(n)] for an integer-valued number. *)
Definition number_to_string (n : Z) : string := pretty n.

Module Object.

(** [obj[k]] on a dictionary whose properties hold possibly-missing
    strings: a key that was never written reads as [undefined]. *)
Definition get (obj : gmap string (option string)) (k : string) : option string :=
  match obj !! k with
  | Some v => v
  | None => None
  end.

Definition keys {V} (obj : gmap string V) : list string := (map_to_list obj).*1.
Definition values {V} (obj : gmap string V) : list V := (map_to_list obj).*2.
Definition entries {V} (obj : gmap string V) : list (string * V) := map_to_list obj.

End Object.

(** The names of the members of [Object.prototype], which every plain
    object inherits. *)
Definition prototypeNames : list string :=
  ["constructor"; "__defineGetter__"; "__defineSetter__"; "hasOwnProperty";
   "__lookupGetter__"; "__lookupSetter__"; "isPrototypeOf";
   "propertyIsEnumerable"; "toString"; "valueOf"; "__proto__"; "toLocaleString"].

(** A snapshot field that is expected to hold an array. *)
Inductive JsField (A : Type) : Type :=
  | Missing
  | NonArray
  | Items (l : list A).
Arguments Missing {A}.
Arguments NonArray {A}.
Arguments Items {A} l.

(** A result block: [{available: false}] or [{available: true, ...}]. *)
Inductive Block (A : Type) : Type :=
  | Unavailable
  | Available (a : A).
Arguments Unavailable {A}.
Arguments Available {A} a.

Definition available {A} (b : Block A) : bool :=
  match b with
  | Unavailable => false
  | Available _ => true
  end.

(** ** Snapshots *)

Record ProjectInfo := { name : option string }.
Record QualityGate := { status : option string }.
Record Measure := { metric : string; value : option string }.
Record Issue := { severity : option string }.

Record Snapshot := {
  projectInfo : option ProjectInfo;
  qualityGate : option QualityGate;
  measures : JsField Measure;
  issues : JsField Issue;
  timestamp : option string
}.

(** ** Comparisons *)

Record QualityGateChange := {
  fromStatus : option string;
  toStatus : option string;
  g_improved : bool;
  g_degraded : bool
}.

Record MeasureChange := {
  m_from : string;
  m_to : string;
  m_diff : spec_float;
  m_improved : bool
}.

Record CountChange := {
  c_from : Z;
  c_to : Z;
  c_diff : Z;
  c_improved : bool
}.

Record IssuesChange := {
  i_changes : gmap string CountChange;
  i_total : CountChange
}.

Record Summary := {
  s_qualityGate : string;
  improvements : list string;
  degradations : list string
}.

(** [summary] is [None] while it still holds the placeholder [{}]. *)
Record Comparison := {
  project : string;
  fromDate : string;
  toDate : string;
  qualityGateChange : Block QualityGateChange;
  measuresChange : Block (gmap string MeasureChange);
  issuesChange : Block IssuesChange;
  summary : option Summary
}.

(** ** [compareQualityGate] *)

Definition is_OK (s : option string) : bool := bool_decide (s = Some "OK").

Definition compareQualityGate (from to : option QualityGate) : Block QualityGateChange :=
  match from, to with
  | Some from, Some to =>
      Available {|
        fromStatus := status from;
        toStatus := status to;
        g_improved := negb (is_OK (status from)) && is_OK (status to);
        g_degraded := is_OK (status from) && negb (is_OK (status to))
      |}
  | _, _ => Unavailable
  end.

(** ** [compareMeasures] *)

(** The [reduce] that turns a measure array into a dictionary. *)
Definition measuresToObject (l : list Measure) : gmap string (option string) :=
  foldl (fun obj measure => <[metric measure := value measure]> obj) ∅ l.

Definition lowerIsBetter : list string :=
  ["bugs"; "vulnerabilities"; "code_smells"; "duplicated_lines_density"].

Definition includes (l : list string) (s : string) : bool := bool_decide (s ∈ l).

Definition measureChange (fromObj toObj : gmap string (option string))
    (metric : string) : MeasureChange :=
  let fromValue := Num.or (parseFloat (Object.get fromObj metric)) Num.zero in
  let toValue := Num.or (parseFloat (Object.get toObj metric)) Num.zero in
  let diff := Num.sub toValue fromValue in
  let improved :=
    if String.eqb metric "coverage" then Num.ltb Num.zero diff
    else if includes lowerIsBetter metric then Num.ltb diff Num.zero
    else false in
  {| m_from := or_string (Object.get fromObj metric) "0";
     m_to := or_string (Object.get toObj metric) "0";
     m_diff := diff;
     m_improved := improved |}.

Definition allMetrics (fromObj toObj : gmap string (option string)) : list string :=
  elements (list_to_set (Object.keys fromObj ++ Object.keys toObj)%list : gset string).

Definition compareMeasures (from to : JsField Measure) : Block (gmap string MeasureChange) :=
  match from, to with
  | Items from, Items to =>
      let fromObj := measuresToObject from in
      let toObj := measuresToObject to in
      let changes :=
        foldl (fun changes metric => <[metric := measureChange fromObj toObj metric]> changes)
              ∅ (allMetrics fromObj toObj) in
      Available changes
  | _, _ => Unavailable
  end.

(** ** [compareIssues] *)

Definition severities : list string := ["BLOCKER"; "CRITICAL"; "MAJOR"; "MINOR"; "INFO"].

(** [issues.filter(issue => issue.severity === severity).length] *)
Definition countSeverity (l : list Issue) (sev : string) : Z :=
  Z.of_nat (length (filter (fun issue => severity issue = Some sev) l)).

Definition severityCounts (l : list Issue) : gmap string Z :=
  foldl (fun counts sev => <[sev := countSeverity l sev]> counts) ∅ severities.

Definition countChange (fromCount toCount : Z) : CountChange :=
  let diff := toCount - fromCount in
  {| c_from := fromCount; c_to := toCount; c_diff := diff; c_improved := (diff <? 0)%Z |}.

Definition sumCounts (counts : gmap string Z) : Z :=
  foldl (fun sum count => sum + count) 0 (Object.values counts).

Definition compareIssues (from to : JsField Issue) : Block IssuesChange :=
  match from, to with
  | Items from, Items to =>
      let fromCounts := severityCounts from in
      let toCounts := severityCounts to in
      let changes :=
        foldl (fun changes sev =>
                 let fromCount := or_zero (fromCounts !! sev) in
                 let toCount := or_zero (toCounts !! sev) in
                 <[sev := countChange fromCount toCount]> changes)
              ∅ severities in
      let totalFrom := sumCounts fromCounts in
      let totalTo := sumCounts toCounts in
      Available {| i_changes := changes; i_total := countChange totalFrom totalTo |}
  | _, _ => Unavailable
  end.

(** ** [generateSummary] *)

Definition measureLine (metric : string) (change : MeasureChange) : string :=
  metric ++ ": " ++ m_from change ++ " -> " ++ m_to change.

Definition issuesLine (total : CountChange) (word : string) : string :=
  "Total issues: " ++ number_to_string (c_from total) ++ " -> "
    ++ number_to_string (c_to total)
    ++ " (" ++ number_to_string (Z.abs (c_diff total)) ++ " " ++ word ++ ")".

Definition pushImprovement (s : Summary) (line : string) : Summary :=
  {| s_qualityGate := s_qualityGate s;
     improvements := improvements s ++ [line];
     degradations := degradations s |}.

Definition pushDegradation (s : Summary) (line : string) : Summary :=
  {| s_qualityGate := s_qualityGate s;
     improvements := improvements s;
     degradations := degradations s ++ [line] |}.

Definition setQualityGate (s : Summary) (text : string) : Summary :=
  {| s_qualityGate := text;
     improvements := improvements s;
     degradations := degradations s |}.

(** [Math.abs(diff) > 0] *)
Definition changed (diff : spec_float) : bool := Num.ltb Num.zero (Num.abs diff).

Definition summarizeMeasure (s : Summary) (entry : string * MeasureChange) : Summary :=
  let '(metric, change) := entry in
  if m_improved change && changed (m_diff change) then
    pushImprovement s (measureLine metric change)
  else if negb (m_improved change) && changed (m_diff change) then
    pushDegradation s (measureLine metric change)
  else s.

Definition summarizeGate (s : Summary) (b : Block QualityGateChange) : Summary :=
  match b with
  | Available g =>
      if g_improved g then setQualityGate s "Improved (Failed -> Passed)"
      else if g_degraded g then setQualityGate s "Degraded (Passed -> Failed)"
      else s
  | Unavailable => s
  end.

Definition summarizeMeasures (s : Summary) (b : Block (gmap string MeasureChange)) : Summary :=
  match b with
  | Available changes => foldl summarizeMeasure s (Object.entries changes)
  | Unavailable => s
  end.

Definition summarizeIssues (s : Summary) (b : Block IssuesChange) : Summary :=
  match b with
  | Available ic =>
      if negb (c_diff (i_total ic) =? 0)%Z then
        let totalChange := i_total ic in
        if c_improved totalChange then pushImprovement s (issuesLine totalChange "fixed")
        else pushDegradation s (issuesLine totalChange "new")
      else s
  | Unavailable => s
  end.

Definition generateSummary (comparison : Comparison) : Summary :=
  let summary :=
    {| s_qualityGate := "No change"; improvements := []; degradations := [] |} in
  let summary := summarizeGate summary (qualityGateChange comparison) in
  let summary := summarizeMeasures summary (measuresChange comparison) in
  summarizeIssues summary (issuesChange comparison).

(** ** [compareQualityData] *)

Definition compareQualityData (fromData toData : Snapshot) : Comparison :=
  let result :=
    {| project := or_string (projectInfo toData ≫= name) "Unknown";
       fromDate := or_string (timestamp fromData) "Unknown";
       toDate := or_string (timestamp toData) "Unknown";
       qualityGateChange := compareQualityGate (qualityGate fromData) (qualityGate toData);
       measuresChange := compareMeasures (measures fromData) (measures toData);
       issuesChange := compareIssues (issues fromData) (issues toData);
       summary := None |} in
  {| project := project result;
     fromDate := fromDate result;
     toDate := toDate result;
     qualityGateChange := qualityGateChange result;
     measuresChange := measuresChange result;
     issuesChange := issuesChange result;
     summary := Some (generateSummary result) |}.

(** ** Notions used to state the properties *)

(** [Array.isArray] on a snapshot field. *)
Definition isArray {A} (f : JsField A) : bool :=
  match f with
  | Items _ => true
  | Missing | NonArray => false
  end.

(** A gate that is there. *)
Definition present {A} (o : option A) : bool :=
  match o with
  | Some _ => true
  | None => false
  end.

(** The change recorded for metric [k], when the block is available. *)
Definition changeOf (b : Block (gmap string MeasureChange)) (k : string) : option MeasureChange :=
  match b with
  | Available changes => changes !! k
  | Unavailable => None
  end.

(** The shape shared by the [reduce] calls that fill a dictionary. *)
Definition foldInsert {A V} (key : A -> string) (val : A -> V)
    (acc : gmap string V) (l : list A) : gmap string V :=
  foldl (fun obj x => <[key x := val x]> obj) acc l.

(** An issue whose severity is one of the five recognized ones. *)
Definition recognized (issue : Issue) : Prop :=
  severity issue ∈ Some <$> severities.

#[local] Instance recognized_dec issue : Decision (recognized issue) :=
  (_ : Decision (severity issue ∈ Some <$> severities)).

(** A difference that is a number other than zero ([NaN], the difference
    of two infinities of the same sign, is not a number). *)
Definition nonzero (d : spec_float) : bool :=
  match d with
  | S754_zero _ | S754_nan => false
  | S754_infinity _ | S754_finite _ _ _ => true
  end.

(** The entries of [measuresChange.changes], none when it is unavailable. *)
Definition measureEntries (c : Comparison) : list (string * MeasureChange) :=
  match measuresChange c with
  | Available changes => map_to_list changes
  | Unavailable => []
  end.

(** The line the specification asks for: ["<metric>: <from> -> <to>"]. *)
Definition expectedLine (e : string * MeasureChange) : string :=
  e.1 ++ ": " ++ m_from e.2 ++ " -> " ++ m_to e.2.

(** A metric whose difference is nonzero and whose [improved] flag is [flag]. *)
Definition selected (flag : bool) (e : string * MeasureChange) : Prop :=
  nonzero (m_diff e.2) = true /\ m_improved e.2 = flag.

#[local] Instance selected_dec flag e : Decision (selected flag e) :=
  (_ : Decision (nonzero (m_diff e.2) = true /\ m_improved e.2 = flag)).

(** One line per selected metric. *)
Definition expectedMeasureLines (flag : bool) (c : Comparison) : list string :=
  expectedLine <$> filter (selected flag) (measureEntries c).

(** The line for the total, when issues are available, the total changed
    and its [improved] flag is [flag]: it ends in ["fixed)"] for an
    improvement and in ["new)"] otherwise. *)
Definition expectedIssueLines (flag : bool) (c : Comparison) : list string :=
  match issuesChange c with
  | Available ic =>
      let t := i_total ic in
      if decide (c_diff t <> 0 /\ c_improved t = flag) then
        ["Total issues: " ++ number_to_string (c_from t) ++ " -> "
           ++ number_to_string (c_to t) ++ " ("
           ++ number_to_string (Z.abs (c_diff t))
           ++ (if flag then " fixed)" else " new)")]
      else []
  | Unavailable => []
  end.

(** ** Notions used to state the further properties *)

(** The entry of the reversed issue comparison. *)
Definition reversedCount (c : CountChange) : CountChange :=
  {| c_from := c_to c; c_to := c_from c; c_diff := - c_diff c;
     c_improved := (0 <? c_diff c)%Z |}.

(** The metrics of the polarity table of [compareMeasures]. *)
Definition polarMetrics : list string :=
  ["coverage"; "bugs"; "vulnerabilities"; "code_smells"; "duplicated_lines_density"].

(** * The reports of [src/commands/report.js] *)

(** ** Exceptions *)

(** What a function throws: [new Error(message)], or the [TypeError] of a
    property read on [undefined] or [null] (its text is the engine's). *)
Inductive Exception : Type :=
  | Error (message : string)
  | TypeError.

Inductive Result (A : Type) : Type :=
  | Ok (a : A)
  | Throw (e : Exception).
Arguments Ok {A} a.
Arguments Throw {A} e.

Definition bind {A B} (r : Result A) (f : A -> Result B) : Result B :=
  match r with
  | Ok a => f a
  | Throw e => Throw e
  end.

(** [l.map(f)] where [f] may throw: the first exception is the outcome. *)
Fixpoint mapM {A B} (f : A -> Result B) (l : list A) : Result (list B) :=
  match l with
  | [] => Ok []
  | x :: l' => bind (f x) (fun y => bind (mapM f l') (fun ys => Ok (y :: ys)))
  end.

(** [l.reduce(f, acc)] where [f] may throw. *)
Fixpoint foldM {A B} (f : B -> A -> Result B) (acc : B) (l : list A) : Result B :=
  match l with
  | [] => Ok acc
  | x :: l' => bind (f acc x) (fun acc' => foldM f acc' l')
  end.

(** ** The quality report of the API client *)

(** A value the code only copies. *)
Inductive Payload : Type := payload (text : string).

Record Project := {
  projectName : option string;
  projectKey : option string
}.

Record Gate := {
  gateStatus : option string;
  conditions : option (list Payload)
}.

Record FullIssue := {
  issueKey : option string;
  issueMessage : option string;
  issueSeverity : option string;
  issueType : option string;
  component : option string;
  line : option Z;
  creationDate : option string
}.

(** The result of [getFullQualityReport]: [projectInfo] is [null] when the
    project is not found; a field the API did not deliver is [undefined]. *)
Record QualityReport := {
  reportProject : option Project;
  reportGate : option Gate;
  reportMeasures : option (list Measure);
  reportIssues : option (list FullIssue);
  coverageDetails : option (list Payload);
  reportTimestamp : option string
}.

(** ** Inherited members

    [String(m)] for the member [m] of [Object.prototype] named [k], as
    Node.js prints it: [__proto__] is [Object.prototype] itself, every
    other member is a native function. *)
Definition inheritedText (k : string) : string :=
  if String.eqb k "__proto__" then "[object Object]"
  else if String.eqb k "constructor" then "function Object() { [native code] }"
  else "function " ++ k ++ "() { [native code] }".

(** [obj[k]] used as text, on a plain object whose own properties hold
    strings: an own property, else the inherited member, else
    [undefined]. *)
Definition textOf (obj : gmap string string) (k : string) : option string :=
  match obj !! k with
  | Some v => Some v
  | None => if bool_decide (k ∈ prototypeNames) then Some (inheritedText k) else None
  end.

(** ** [String.prototype.replace] with a string pattern *)

Fixpoint dropString (n : nat) (s : string) : string :=
  match n, s with
  | S n', String _ s' => dropString n' s'
  | _, _ => s
  end.

(** [s.replace(pattern, '')]: the first occurrence of [pattern] is removed. *)
Fixpoint removeFirst (pattern s : string) : string :=
  if String.prefix pattern s then dropString (String.length pattern) s
  else
    match s with
    | String c s' => String c (removeFirst pattern s')
    | EmptyString => EmptyString
    end.

Definition projectPrefix : string := "henry1266_pharmacy-pos:".

(** [issue.component.replace('henry1266_pharmacy-pos:', '')] *)
Definition shortComponent (issue : FullIssue) : Result string :=
  match component issue with
  | Some c => Ok (removeFirst projectPrefix c)
  | None => Throw TypeError
  end.

(** ** [generateSummaryReport] *)

Record ProjectSummary := {
  ps_name : option string;
  ps_key : option string;
  lastAnalysisDate : option string
}.

Record GateSummary := {
  gs_status : option string;
  passed : bool
}.

Record MetricsSummary := {
  codeSize : string;
  coverage : string;
  duplications : string;
  bugs : string;
  vulnerabilities : string;
  codeSmells : string;
  securityHotspots : string
}.

Record IssuesSummary := {
  total : Z;
  bySeverity : gmap string Z
}.

Record SummaryReport := {
  sr_project : ProjectSummary;
  sr_qualityGate : GateSummary;
  sr_metrics : MetricsSummary;
  sr_issues : IssuesSummary
}.

(** The body of the two counting [reduce] calls:
    [const k = field || 'UNKNOWN'; counts[k] = (counts[k] || 0) + 1],
    for keys outside [prototypeNames] (for such a name the code adds [1]
    to the text of the inherited member; the properties below that read
    the entry of a key assume that the key is no such name). *)
Definition countInto (field : FullIssue -> option string)
    (counts : gmap string Z) (issue : FullIssue) : gmap string Z :=
  let k := or_string (field issue) "UNKNOWN" in
  <[k := or_zero (counts !! k) + 1]> counts.

Definition countBy (field : FullIssue -> option string) (l : list FullIssue) : gmap string Z :=
  foldl (countInto field) ∅ l.

Definition generateSummaryReport (data : QualityReport) : Result SummaryReport :=
  match reportMeasures data with
  | None => Throw TypeError
  | Some measures =>
      let metricsObj := measuresToObject measures in
      let issuesBySeverity :=
        match reportIssues data with
        | Some issues => countBy issueSeverity issues
        | None => ∅
        end in
      match reportProject data, reportGate data with
      | Some projectInfo, Some qualityGate =>
          Ok {| sr_project :=
                  {| ps_name := projectName projectInfo;
                     ps_key := projectKey projectInfo;
                     lastAnalysisDate := reportTimestamp data |};
                sr_qualityGate :=
                  {| gs_status := gateStatus qualityGate;
                     passed := is_OK (gateStatus qualityGate) |};
                sr_metrics :=
                  {| codeSize := or_string (Object.get metricsObj "ncloc") "N/A";
                     coverage := or_string (Object.get metricsObj "coverage") "N/A";
                     duplications :=
                       or_string (Object.get metricsObj "duplicated_lines_density") "N/A";
                     bugs := or_string (Object.get metricsObj "bugs") "N/A";
                     vulnerabilities :=
                       or_string (Object.get metricsObj "vulnerabilities") "N/A";
                     codeSmells := or_string (Object.get metricsObj "code_smells") "N/A";
                     securityHotspots :=
                       or_string (Object.get metricsObj "security_hotspots") "N/A" |};
                sr_issues :=
                  {| total := match reportIssues data with
                              | Some issues => Z.of_nat (length issues)
                              | None => 0
                              end;
                     bySeverity := issuesBySeverity |} |}
      | _, _ => Throw TypeError
      end
  end.

(** ** [generateDetailedReport] *)

Record LatestIssue := {
  li_key : option string;
  li_message : option string;
  li_severity : option string;
  li_type : option string;
  li_component : string
}.

Record DetailedReport := {
  dr_project : ProjectSummary;
  dr_qualityGate : GateSummary;
  dr_conditions : list Payload;
  dr_metrics : MetricsSummary;
  dr_allMetrics : gmap string (option string);
  dr_issues : IssuesSummary;
  dr_byType : gmap string Z;
  dr_latest : list LatestIssue;
  dr_overallCoverage : string;
  dr_coverageDetails : list Payload
}.

Definition latestIssue (issue : FullIssue) : Result LatestIssue :=
  bind (shortComponent issue) (fun c =>
    Ok {| li_key := issueKey issue;
          li_message := issueMessage issue;
          li_severity := issueSeverity issue;
          li_type := issueType issue;
          li_component := c |}).

(** [x || []] on a possibly-missing array (an empty array is truthy). *)
Definition or_empty {A} (v : option (list A)) : list A :=
  match v with
  | Some l => l
  | None => []
  end.

Definition generateDetailedReport (data : QualityReport) : Result DetailedReport :=
  bind (generateSummaryReport data) (fun summary =>
    match reportGate data, reportMeasures data with
    | Some qualityGate, Some measures =>
        let byType :=
          match reportIssues data with
          | Some issues => countBy issueType issues
          | None => ∅
          end in
        bind (match reportIssues data with
              | Some issues => mapM latestIssue (take 10 issues)
              | None => Ok []
              end) (fun latest =>
          Ok {| dr_project := sr_project summary;
                dr_qualityGate := sr_qualityGate summary;
                dr_conditions := or_empty (conditions qualityGate);
                dr_metrics := sr_metrics summary;
                dr_allMetrics := measuresToObject measures;
                dr_issues := sr_issues summary;
                dr_byType := byType;
                dr_latest := latest;
                dr_overallCoverage :=
                  or_string (find (fun m => String.eqb (metric m) "coverage") measures
                               ≫= value) "N/A";
                dr_coverageDetails := or_empty (coverageDetails data) |})
    | _, _ => Throw TypeError
    end).

(** ** [generateIssuesReport] *)

Record IssueItem := {
  ii_key : option string;
  ii_message : option string;
  ii_component : string;
  ii_line : option Z;
  ii_type : option string;
  ii_creationDate : option string
}.

Record SeverityGroup := {
  sg_severity : string;
  sg_count : Z;
  sg_issues : list IssueItem
}.

(** [bySeverity] is absent from the report of the early return. *)
Record IssuesReport := {
  ir_project : option string;
  ir_timestamp : option string;
  ir_total : Z;
  ir_bySeverity : option (gmap string Z);
  ir_items : list SeverityGroup
}.

Definition issueItem (issue : FullIssue) : Result IssueItem :=
  bind (shortComponent issue) (fun c =>
    Ok {| ii_key := issueKey issue;
          ii_message := issueMessage issue;
          ii_component := c;
          ii_line := line issue;
          ii_type := issueType issue;
          ii_creationDate := creationDate issue |}).

(** The body of the grouping [reduce].  For a severity in
    [prototypeNames], [groups[severity]] is the inherited member: it is
    truthy, so no array is stored, and it has no [push], so the call
    throws a [TypeError]. *)
Definition groupInto (groups : gmap string (list IssueItem)) (issue : FullIssue)
    : Result (gmap string (list IssueItem)) :=
  let sev := or_string (issueSeverity issue) "UNKNOWN" in
  if bool_decide (sev ∈ prototypeNames) then Throw TypeError
  else
    let groups :=
      match groups !! sev with
      | Some _ => groups
      | None => <[sev := []]> groups
      end in
    bind (issueItem issue) (fun item =>
      Ok (<[sev := (or_empty (groups !! sev) ++ [item])%list]> groups)).

Definition generateIssuesReport (data : QualityReport) : Result IssuesReport :=
  match reportIssues data with
  | None =>
      match reportProject data with
      | Some projectInfo =>
          Ok {| ir_project := projectName projectInfo;
                ir_timestamp := reportTimestamp data;
                ir_total := 0;
                ir_bySeverity := None;
                ir_items := [] |}
      | None => Throw TypeError
      end
  | Some issues =>
      bind (foldM groupInto ∅ issues) (fun issuesBySeverity =>
        match reportProject data with
        | Some projectInfo =>
            Ok {| ir_project := projectName projectInfo;
                  ir_timestamp := reportTimestamp data;
                  ir_total := Z.of_nat (length issues);
                  ir_bySeverity :=
                    Some (foldl (fun obj sev =>
                                   <[sev := Z.of_nat (length (or_empty (issuesBySeverity !! sev)))]> obj)
                                ∅ (Object.keys issuesBySeverity));
                  ir_items :=
                    (fun e : string * list IssueItem =>
                       {| sg_severity := e.1;
                          sg_count := Z.of_nat (length e.2);
                          sg_issues := e.2 |})
                      <$> Object.entries issuesBySeverity |}
        | None => Throw TypeError
        end)
  end.

(** ** Notions used to state the properties of the reports *)

(** The key under which the counting and grouping [reduce] calls file an
    issue: [field || 'UNKNOWN']. *)
Definition keyOf (field : FullIssue -> option string) (issue : FullIssue) : string :=
  or_string (field issue) "UNKNOWN".

(** The number of issues filed under [k]. *)
Definition countKey (field : FullIssue -> option string) (l : list FullIssue) (k : string) : Z :=
  Z.of_nat (length (filter (fun issue => keyOf field issue = k) l)).

(** The part of an issue that [compareIssues] reads. *)
Definition toIssue (issue : FullIssue) : Issue :=
  {| severity := issueSeverity issue |}.

(** Sample data for the examples: an issue with a severity and a
    component, and a report with a project, a passed gate, measures and
    issues. *)
Definition issueOf (sev comp : option string) : FullIssue :=
  {| issueKey := None; issueMessage := None; issueSeverity := sev;
     issueType := None; component := comp; line := None; creationDate := None |}.

Definition reportOf (ms : list Measure) (l : option (list FullIssue)) : QualityReport :=
  {| reportProject := Some {| projectName := Some "pharmacy-pos"; projectKey := None |};
     reportGate := Some {| gateStatus := Some "OK"; conditions := None |};
     reportMeasures := Some ms;
     reportIssues := l;
     coverageDetails := None;
     reportTimestamp := None |}.

(** * The formatter of [src/utils/formatter.js]

    Texts that are not ASCII are the strings of their UTF-8 bytes.  The
    file system, the clock, the API client, [path.join] and
    [JSON.stringify]/[JSON.parse] are an environment the functions query;
    what they do to the file system is returned as a trace.  Console
    output is not modelled. *)

Definition newline : string := String (ascii_of_nat 10) EmptyString.
Definition doubleQuote : string := String (ascii_of_nat 34) EmptyString.

(** [ToString] of a possibly-missing string, as a template literal does. *)
Definition interpolate (v : option string) : string := ParseFloat.to_string v.

(** ** Rows for [toCSV] *)

(** The value of a property of a row object: a string, a boolean, [null]
    or a plain object (numbers and arrays are outside the model). *)
Inductive Scalar : Type :=
  | SString (s : string)
  | SBool (b : bool)
  | SNull
  | SObject.

(** A row object: its properties in enumeration order, without repeated
    keys. *)
Definition Row : Type := list (string * Scalar).

Definition rowKeys (item : Row) : list string := item.*1.

(** [item[header]] *)
Definition rowGet (item : Row) (header : string) : option Scalar :=
  snd <$> List.find (fun e : string * Scalar => String.eqb e.1 header) item.

Definition scalarTruthy (v : Scalar) : bool :=
  match v with
  | SString EmptyString | SBool false | SNull => false
  | SString _ | SBool true | SObject => true
  end.

(** [v || ''] *)
Definition orEmptyString (v : option Scalar) : Scalar :=
  match v with
  | Some x => if scalarTruthy x then x else SString EmptyString
  | None => SString EmptyString
  end.

(** [s.includes(',')] *)
Fixpoint includesComma (s : string) : bool :=
  match s with
  | String c s' => (c =? ",")%char || includesComma s'
  | EmptyString => false
  end.

(** The conversion [Array.prototype.join] applies to an element. *)
Definition scalarToString (v : Scalar) : string :=
  match v with
  | SString s => s
  | SBool true => "true"
  | SBool false => "false"
  | SNull => EmptyString
  | SObject => "[object Object]"
  end.

Definition join (sep : string) (l : list string) : string := String.concat sep l.

Definition csvCell (item : Row) (header : string) : Scalar :=
  let value := orEmptyString (rowGet item header) in
  match value with
  | SString s => if includesComma s then SString (doubleQuote ++ s ++ doubleQuote) else value
  | _ => value
  end.

Definition csvRow (headers : list string) (item : Row) : string :=
  join "," (scalarToString <$> (csvCell item <$> headers)) ++ newline.

(** ** What [saveToFile] is given *)

Inductive Data : Type :=
  | DataReport (r : QualityReport)
  | DataArray (items : list Row)
  | DataComparison (c : Comparison)
  | DataSummaryReport (r : SummaryReport)
  | DataDetailedReport (r : DetailedReport)
  | DataIssuesReport (r : IssuesReport).

(** ** [toCSV] *)

Definition csvNeedsArray : string := "CSV 格式化需要陣列資料".

Definition toCSV (data : Data) (headers : list string) : Result string :=
  match data with
  | DataArray items =>
      Ok (foldl (fun csv item => csv ++ csvRow headers item)
                (join "," headers ++ newline) items)
  | _ => Throw (Error csvNeedsArray)
  end.

(** ** [toTextReport] *)

Definition invalidReportData : string := "無效的報告資料".

Definition metricLabels : gmap string string :=
  <["security_hotspots" := "安全熱點數量"]>
  (<["code_smells" := "程式碼異味數量"]>
  (<["vulnerabilities" := "安全漏洞數量"]>
  (<["bugs" := "Bug 數量"]>
  (<["duplicated_lines_density" := "重複程式碼比例"]>
  (<["coverage" := "測試覆蓋率"]>
  (<["ncloc" := "程式碼行數"]> ∅)))))).

Definition measureText (measure : Measure) : string :=
  let label := or_string (textOf metricLabels (metric measure)) (metric measure) in
  let value := interpolate (value measure) in
  let value :=
    if String.eqb (metric measure) "coverage"
       || String.eqb (metric measure) "duplicated_lines_density"
    then value ++ "%" else value in
  "- " ++ label ++ ": " ++ value ++ newline.

(** The body of the grouping [reduce] of [toTextReport]; as in
    [groupInto], a severity in [prototypeNames] makes [push] throw a
    [TypeError]. *)
Definition groupIssue (groups : gmap string (list FullIssue)) (issue : FullIssue)
    : Result (gmap string (list FullIssue)) :=
  let sev := or_string (issueSeverity issue) "UNKNOWN" in
  if bool_decide (sev ∈ prototypeNames) then Throw TypeError
  else
    let groups :=
      match groups !! sev with
      | Some _ => groups
      | None => <[sev := []]> groups
      end in
    Ok (<[sev := (or_empty (groups !! sev) ++ [issue])%list]> groups).

Definition severityText (groups : gmap string (list FullIssue)) (report sev : string) : string :=
  match groups !! sev with
  | Some group =>
      report ++ "- " ++ sev ++ ": " ++ number_to_string (Z.of_nat (length group))
             ++ " 個問題" ++ newline
  | None => report
  end.

(** [localeNow] is [new Date().toLocaleString()]. *)
Definition toTextReport (localeNow : string) (data : Data) : Result string :=
  match data with
  | DataReport d =>
      match reportProject d, reportGate d, reportMeasures d with
      | Some projectInfo, Some qualityGate, Some measures =>
          let report :=
            "# SonarCloud 品質報告: " ++ interpolate (projectName projectInfo)
              ++ newline ++ newline in
          let report := report ++ "生成時間: " ++ localeNow ++ newline ++ newline in
          let report := report ++ "## 品質閘道狀態" ++ newline ++ newline in
          let report :=
            report ++ "狀態: "
              ++ (if is_OK (gateStatus qualityGate) then "通過 ✅" else "未通過 ❌")
              ++ newline ++ newline in
          let report := report ++ "## 主要品質指標" ++ newline ++ newline in
          let report :=
            foldl (fun report measure => report ++ measureText measure) report measures in
          match reportIssues d with
          | Some (issue :: rest) =>
              let report := report ++ newline ++ "## 問題摘要" ++ newline ++ newline in
              bind (foldM groupIssue ∅ (issue :: rest)) (fun severityGroups =>
                Ok (foldl (severityText severityGroups) report severities))
          | _ => Ok report
          end
      | _, _, _ => Throw (Error invalidReportData)
      end
  | _ => Throw (Error invalidReportData)
  end.

(** ** The environment *)

Record Environment := {
  existsSync : string -> bool;
  mkdirSync : string -> option Exception;
  writeFileSync : string -> string -> option Exception;
  readFileSync : string -> Result string;
  pathJoin : string -> string -> string;
  (** [JSON.stringify(data, null, 2)] *)
  stringify : Data -> string;
  (** [JSON.parse]: [Ok None] for the text [null]; any other value is
      read as the snapshot of the properties it has (the elements of its
      arrays being objects, as in the files the tool writes). *)
  parseSnapshot : string -> Result (option Snapshot);
  (** [new Date().toISOString()] and [new Date().toLocaleString()] *)
  isoNow : string;
  localeNow : string;
  (** The API client. *)
  getFullQualityReport : string -> Result QualityReport;
  getProjectMeasures : string -> string -> Result (list Row)
}.

Record Config := {
  defaultProjectKey : string;
  outputDir : string;
  defaultFormat : string
}.

(** A call that changed the file system. *)
Inductive Effect : Type :=
  | Mkdir (dir : string)
  | WriteFile (path content : string).

(** ** [saveToFile] *)

Definition extensions : gmap string string :=
  <["text" := ".txt"]> (<["csv" := ".csv"]> (<["json" := ".json"]> ∅)).

(** The trace of the calls made, and the path returned or the exception
    thrown. *)
Definition saveToFile (env : Environment) (config : Config)
    (data : Data) (filename format : string) (headers : list string)
    : list Effect * Result string :=
  let dir := outputDir config in
  let '(trace, made) :=
    if existsSync env dir then ([], None)
    else ([Mkdir dir], mkdirSync env dir) in
  match made with
  | Some e => ([], Throw e)
  | None =>
      let ext := or_string (textOf extensions format) ".json" in
      let filepath := pathJoin env dir (filename ++ ext) in
      let content :=
        if String.eqb format "csv" then toCSV data headers
        else if String.eqb format "text" then toTextReport (localeNow env) data
        else Ok (stringify env data) in
      match content with
      | Throw e => (trace, Throw e)
      | Ok content =>
          match writeFileSync env filepath content with
          | Some e => (trace, Throw e)
          | None => ((trace ++ [WriteFile filepath content])%list, Ok filepath)
          end
      end
  end.

(** * The commands *)

(** The outcome of a command: [{success: true, message, ..., filepath}],
    or [{success: false, message}] whose message is [context], [": "] and
    the message of the exception caught. *)
Inductive CommandResult (A : Type) : Type :=
  | Succeeded (message : string) (value : A) (filepath : string)
  | Failed (context : string) (e : Exception).
Arguments Succeeded {A} message value filepath.
Arguments Failed {A} context e.

(** [!v] on a possibly-missing string. *)
Definition falsy (v : option string) : bool :=
  match v with
  | None | Some EmptyString => true
  | Some _ => false
  end.

(** [s.replace(/[:.]/g, '-')] *)
Fixpoint dashed (s : string) : string :=
  match s with
  | String c s' =>
      String (if (c =? ":")%char || (c =? ".")%char then "-"%char else c) (dashed s')
  | EmptyString => EmptyString
  end.

(** ** [Storage.loadData] of [src/utils/storage.js] *)


(** ** [compareData] of [src/commands/compare.js] *)





(** ** [generateReport] of [src/commands/report.js] *)




(** ** [fetchData] of [src/commands/fetch.js] *)

Record FetchOptions := {
  fo_project : option string;
  fo_format : option string;
  fo_output : option string;
  fo_metrics : option string
}.

Definition fetchData (env : Environment) (config : Config) (options : FetchOptions)
    : list Effect * CommandResult Data :=
  let project := default (defaultProjectKey config) (fo_project options) in
  let format := default (defaultFormat config) (fo_format options) in
  let fetched :=
    if negb (falsy (fo_metrics options)) then
      bind (getProjectMeasures env project (interpolate (fo_metrics options)))
           (fun measures => Ok (DataArray measures))
    else
      bind (getFullQualityReport env project) (fun report => Ok (DataReport report)) in
  match fetched with
  | Throw e => ([], Failed "獲取資料失敗" e)
  | Ok data =>
      let timestamp := dashed (isoNow env) in
      let filename :=
        or_string (fo_output options) (project ++ "_quality_report_" ++ timestamp) in
      let '(trace, saved) :=
        match data with
        | DataArray items =>
            if String.eqb format "csv" then
              let headers := rowKeys (default [] (head items)) in
              saveToFile env config data filename format headers
            else saveToFile env config data filename format []
        | _ => saveToFile env config data filename format []
        end in
      match saved with
      | Ok filepath => (trace, Succeeded ("品質資料已儲存至: " ++ filepath) data filepath)
      | Throw e => (trace, Failed "獲取資料失敗" e)
      end
  end.

(** ** Notions used to state the properties of the formatter and the commands *)

(** The extension [saveToFile] gives a file of format [format]: the
    text of the inherited member for a format in [prototypeNames]. *)
Definition extensionOf (format : string) : string :=
  if String.eqb format "csv" then ".csv"
  else if String.eqb format "text" then ".txt"
  else if bool_decide (format ∈ prototypeNames) then inheritedText format
  else ".json".

(** The extension of a format that names no inherited member. *)
Definition plainExtension (format : string) : string :=
  if String.eqb format "csv" then ".csv"
  else if String.eqb format "text" then ".txt"
  else ".json".

(** The content [saveToFile] computes for [format]. *)
Definition contentOf (env : Environment) (data : Data) (format : string)
    (headers : list string) : Result string :=
  if String.eqb format "csv" then toCSV data headers
  else if String.eqb format "text" then toTextReport (localeNow env) data
  else Ok (stringify env data).

(** The directory is there, or can be made. *)
Definition directoryReady (env : Environment) (dir : string) : Prop :=
  existsSync env dir = true \/ mkdirSync env dir = None.

Definition isWrite (e : Effect) : bool :=
  match e with
  | WriteFile _ _ => true
  | Mkdir _ => false
  end.

(** The number of line feeds in a string. *)
Fixpoint lineFeeds (s : string) : nat :=
  match s with
  | String c s' => ((if (c =? ascii_of_nat 10)%char then 1 else 0) + lineFeeds s')%nat
  | EmptyString => 0%nat
  end.

(** The text of a string property of a row, the empty string for any
    other or missing property. *)
Definition rowText (item : Row) (header : string) : string :=
  match rowGet item header with
  | Some (SString s) => s
  | _ => EmptyString
  end.

(** The lines the text report has for the issues [l]: for each of the
    five severities, in their order, one line with the number of issues
    of that severity when there is at least one. *)
Definition expectedSeverityLine (l : list FullIssue) (sev : string) : string :=
  if decide (countKey issueSeverity l sev = 0) then EmptyString
  else "- " ++ sev ++ ": " ++ number_to_string (countKey issueSeverity l sev)
            ++ " 個問題" ++ newline.

Definition expectedSeverityLines (l : list FullIssue) : string :=
  foldr (fun sev rest => expectedSeverityLine l sev ++ rest) EmptyString severities.

(** The section of the text report about the issues [l]. *)
Definition expectedIssueSection (l : list FullIssue) : string :=
  match l with
  | [] => EmptyString
  | _ => newline ++ "## 問題摘要" ++ newline ++ newline ++ expectedSeverityLines l
  end.

(** The quality report without its issues. *)
Definition withoutIssues (d : QualityReport) : QualityReport :=
  {| reportProject := reportProject d;
     reportGate := reportGate d;
     reportMeasures := reportMeasures d;
     reportIssues := None;
     coverageDetails := coverageDetails d;
     reportTimestamp := reportTimestamp d |}.

(** A snapshot without any field, and an environment in which every file
    exists and every call succeeds, for the examples.  Its [pathJoin] is
    what [path.join] gives for a directory and a file name that are plain
    names, as they are in the examples. *)
Definition emptySnapshot : Snapshot :=
  {| projectInfo := None; qualityGate := None; measures := Missing;
     issues := Missing; timestamp := None |}.

Definition sampleEnvironment : Environment :=
  {| existsSync := fun _ => true;
     mkdirSync := fun _ => None;
     writeFileSync := fun _ _ => None;
     readFileSync := fun _ => Ok "{}";
     pathJoin := fun dir file => dir ++ "/" ++ file;
     stringify := fun _ => "{}";
     parseSnapshot := fun _ => Ok (Some emptySnapshot);
     isoNow := "2025-05-25T10:20:30.123Z";
     localeNow := "5/25/2025, 10:20:30 AM";
     getFullQualityReport := fun _ => Ok (reportOf [] None);
     getProjectMeasures := fun _ _ => Ok [] |}.

Definition sampleConfig : Config :=
  {| defaultProjectKey := "henry1266_pharmacy-pos";
     outputDir := "output";
     defaultFormat := "json" |}.

(** The path [saveToFile] writes to. *)
Definition savedPath (env : Environment) (config : Config) (filename format : string)
    : string :=
  pathJoin env (outputDir config) (filename ++ extensionOf format).

(** The directory [saveToFile] makes: the output directory when it is
    not there. *)
Definition madeDirectory (env : Environment) (config : Config) : list Effect :=
  if existsSync env (outputDir config) then [] else [Mkdir (outputDir config)].





(** The format, the file name and the headers [fetchData] saves with. *)
Definition fetchFormat (config : Config) (options : FetchOptions) : string :=
  default (defaultFormat config) (fo_format options).

Definition fetchFilename (env : Environment) (config : Config)
    (options : FetchOptions) : string :=
  or_string (fo_output options)
    (default (defaultProjectKey config) (fo_project options)
       ++ "_quality_report_" ++ dashed (isoNow env)).

Definition fetchHeaders (format : string) (data : Data) : list string :=
  match data with
  | DataArray (item :: _) => if String.eqb format "csv" then rowKeys item else []
  | _ => []
  end.


(** An environment in which nothing exists yet. *)
Definition freshEnvironment : Environment :=
  {| existsSync := fun _ => false;
     mkdirSync := fun _ => None;
     writeFileSync := fun _ _ => None;
     readFileSync := fun _ => Throw (Error "ENOENT");
     pathJoin := fun dir file => dir ++ "/" ++ file;
     stringify := fun _ => "{}";
     parseSnapshot := fun _ => Ok (Some emptySnapshot);
     isoNow := "2025-05-25T10:20:30.123Z";
     localeNow := "5/25/2025, 10:20:30 AM";
     getFullQualityReport := fun _ => Ok (reportOf [] None);
     getProjectMeasures := fun _ _ => Ok [[("metric", SString "bugs"); ("value", SString "3")]] |}.


(** The message of the error the formatter throws for a document. *)
Definition formatError (format : string) : string :=
  if String.eqb format "csv" then csvNeedsArray else invalidReportData.






Definition fetchProjectKey (config : Config) (options : FetchOptions) : string :=
  default (defaultProjectKey config) (fo_project options).



Definition sampleFetch (format metrics : option string) : FetchOptions :=
  {| fo_project := None; fo_format := format; fo_output := Some "quality";
     fo_metrics := metrics |}.


(** * Properties *)

(** ** [parseFloat] *)

Example parseFloat_integer : parseFloat (Some "70") = Num.of_Z 70.
Proof. reflexivity. Qed.

Example parseFloat_fraction :
  parseFloat (Some "0.1") = S754_finite false 7205759403792794 (-56).
Proof. reflexivity. Qed.

Example parseFloat_prefix : parseFloat (Some "  12px") = Num.of_Z 12.
Proof. reflexivity. Qed.

Example parseFloat_exponent : parseFloat (Some "-1.5e3") = Num.of_Z (-1500).
Proof. reflexivity. Qed.

Example parseFloat_infinity : parseFloat (Some "-Infinity") = Num.infinity true.
Proof. reflexivity. Qed.

Example parseFloat_text : parseFloat (Some "n/a") = Num.nan.
Proof. reflexivity. Qed.

Example parseFloat_empty : parseFloat (Some EmptyString) = Num.nan.
Proof. reflexivity. Qed.

Example parseFloat_undefined : parseFloat None = Num.nan.
Proof. reflexivity. Qed.

(** [Math.abs(diff) > 0] holds exactly for a nonzero number. *)
Lemma changed_nonzero (d : spec_float) : changed d = nonzero d.
Proof. by destruct d as [[]|[]| |[] ? ?]. Qed.

(** [v || '0'] on a string: the empty string is the only falsy one. *)
Lemma or_string_Some (s d : string) :
  or_string (Some s) d = if decide (s = EmptyString) then d else s.
Proof. by destruct s. Qed.

Lemma or_zero_Some (n : Z) : or_zero (Some n) = n.
Proof. simpl. destruct (Z.eqb_spec n 0); congruence. Qed.

(** ** Dictionaries built by a fold *)

Section FoldInsert.
Context {A V : Type}.
Variables (key : A -> string) (val : A -> V).

Lemma foldInsert_snoc (acc : gmap string V) l x :
  foldInsert key val acc (l ++ [x]) = <[key x := val x]> (foldInsert key val acc l).
Proof. unfold foldInsert. by rewrite foldl_app. Qed.

Lemma foldInsert_lookup_last (acc : gmap string V) l k :
  foldInsert key val acc l !! k =
    match last (filter (fun x => key x = k) l) with
    | Some x => Some (val x)
    | None => acc !! k
    end.
Proof.
  induction l as [|x l IH] using rev_ind; [done|].
  rewrite foldInsert_snoc, filter_app, lookup_insert.
  destruct (decide (key x = k)) as [Hk|Hk].
  - rewrite filter_cons_True by done. by rewrite filter_nil, last_snoc.
  - rewrite filter_cons_False by done. by rewrite filter_nil, app_nil_r.
Qed.

Lemma foldInsert_is_Some l k :
  is_Some (foldInsert key val ∅ l !! k) <-> k ∈ key <$> l.
Proof.
  induction l as [|x l IH] using rev_ind.
  - simpl. rewrite lookup_empty, elem_of_nil. split; [by intros [? ?]|done].
  - rewrite foldInsert_snoc, fmap_app, elem_of_app, lookup_insert.
    destruct (decide (key x = k)) as [<-|Hk]; simpl.
    + split; [intros _; right; left|eauto].
    + rewrite IH, list_elem_of_singleton. split; [by left|].
      intros [?|?]; [done|]. by subst.
Qed.

End FoldInsert.

(** A dictionary filled by visiting keys: [ks.forEach(k => obj[k] = f(k))]. *)
Lemma foldl_insert_keys {V} (f : string -> V) (ks : list string) (acc : gmap string V) k :
  foldl (fun obj k => <[k := f k]> obj) acc ks !! k =
    if decide (k ∈ ks) then Some (f k) else acc !! k.
Proof.
  induction ks as [|x ks IH] using rev_ind.
  - by rewrite decide_False by apply not_elem_of_nil.
  - rewrite foldl_app. simpl. rewrite lookup_insert.
    destruct (decide (x = k)) as [->|Hx].
    + rewrite decide_True; [done|]. apply elem_of_app. right. left.
    + rewrite IH. destruct (decide (k ∈ ks)) as [Hk|Hk].
      * rewrite decide_True; [done|]. apply elem_of_app. by left.
      * rewrite decide_False; [done|].
        rewrite elem_of_app, list_elem_of_singleton. intros [?|?]; by subst.
Qed.

Lemma elem_of_keys {V} (obj : gmap string V) k :
  k ∈ Object.keys obj <-> is_Some (obj !! k).
Proof.
  unfold Object.keys. rewrite list_elem_of_fmap. split.
  - intros [[k' v] [-> Hin]]. apply elem_of_map_to_list in Hin. eauto.
  - intros [v Hv]. exists (k, v). split; [done|]. by apply elem_of_map_to_list.
Qed.

(** Membership in a list of string literals, by cases. *)
Ltac elem_of_cases H tac :=
  repeat (apply elem_of_cons in H as [H|H]; [tac|]);
  try (by apply elem_of_nil in H).

(** A given key is not the name of an inherited member. *)
Ltac not_prototype :=
  let H := fresh "Hproto" in
  intros H; vm_compute in H;
  repeat (apply elem_of_cons in H as [H|H]; [discriminate H|]);
  by apply elem_of_nil in H.

(** ** [compareQualityGate] *)

Lemma is_OK_true (s : option string) : is_OK s = true <-> s = Some "OK".
Proof. unfold is_OK. by rewrite bool_decide_eq_true. Qed.

Lemma is_OK_false (s : option string) : is_OK s = false <-> s <> Some "OK".
Proof. unfold is_OK. by rewrite bool_decide_eq_false. Qed.

(** C2. Two present gates give an available block whose [improved] flag
    holds exactly when the status moves from a value other than ["OK"] to
    ["OK"], and whose [degraded] flag holds exactly when it moves from
    ["OK"] to another value; both flags are false when the statuses are
    equal and when neither is ["OK"].  An absent gate on either side gives
    [{available: false}]. *)
Theorem compareQualityGate_spec :
  (forall from to : QualityGate,
     exists g,
       compareQualityGate (Some from) (Some to) = Available g /\
       fromStatus g = status from /\
       toStatus g = status to /\
       (g_improved g = true <-> status from <> Some "OK" /\ status to = Some "OK") /\
       (g_degraded g = true <-> status from = Some "OK" /\ status to <> Some "OK") /\
       (status from = status to -> g_improved g = false /\ g_degraded g = false) /\
       (status from <> Some "OK" -> status to <> Some "OK" ->
        g_improved g = false /\ g_degraded g = false)) /\
  (forall to, compareQualityGate None to = Unavailable) /\
  (forall from, compareQualityGate from None = Unavailable).
Proof.
  split; [|split; [done|by intros []]].
  intros [sf] [st]. eexists. split; [reflexivity|]. simpl.
  split; [done|]. split; [done|].
  rewrite !andb_true_iff, !negb_true_iff, !is_OK_true, !is_OK_false.
  split; [done|]. split; [done|]. split.
  - intros ->. by destruct (is_OK st).
  - intros Hf Ht. apply is_OK_false in Hf, Ht. by rewrite Hf, Ht.
Qed.

(** The move from ["FAILED"] to ["OK"]. *)
Lemma compareQualityGate_spec_witness :
  exists g,
    compareQualityGate (Some {| status := Some "FAILED" |}) (Some {| status := Some "OK" |})
      = Available g /\
    g_improved g = true /\ g_degraded g = false.
Proof.
  destruct (proj1 compareQualityGate_spec
              {| status := Some "FAILED" |} {| status := Some "OK" |})
    as (g & Heq & _ & _ & Himp & Hdeg & _).
  exists g. split; [exact Heq|]. split.
  - apply Himp. simpl. split; [discriminate|reflexivity].
  - destruct (g_degraded g); [|reflexivity].
    destruct (proj1 Hdeg eq_refl) as [Hf _]. discriminate Hf.
Defined.

Example compareQualityGate_OK_FAILED :
  compareQualityGate (Some {| status := Some "OK" |}) (Some {| status := Some "FAILED" |})
  = Available {| fromStatus := Some "OK"; toStatus := Some "FAILED";
                 g_improved := false; g_degraded := true |}.
Proof. reflexivity. Qed.

Example compareQualityGate_OK_OK :
  compareQualityGate (Some {| status := Some "OK" |}) (Some {| status := Some "OK" |})
  = Available {| fromStatus := Some "OK"; toStatus := Some "OK";
                 g_improved := false; g_degraded := false |}.
Proof. reflexivity. Qed.

(** C10. Only the presence of the gate objects is tested.  A present gate
    that has no [status] counts as not passed: against a gate whose status
    is ["OK"] the block is available and improved, not degraded, and its
    [fromStatus] is [undefined]. *)
Theorem compareQualityGate_missing_status :
  compareQualityGate (Some {| status := None |}) (Some {| status := Some "OK" |})
    = Available {| fromStatus := None; toStatus := Some "OK";
                   g_improved := true; g_degraded := false |} /\
  (forall to : QualityGate,
     compareQualityGate (Some {| status := None |}) (Some to)
       = Available {| fromStatus := None; toStatus := status to;
                      g_improved := is_OK (status to); g_degraded := false |}) /\
  (forall from : QualityGate,
     compareQualityGate (Some from) (Some {| status := None |})
       = Available {| fromStatus := status from; toStatus := None;
                      g_improved := false; g_degraded := is_OK (status from) |}).
Proof.
  split; [reflexivity|]. split.
  - by intros [st].
  - intros [sf]. unfold compareQualityGate. simpl.
    by rewrite andb_false_r, andb_true_r.
Qed.

(** ** [compareMeasures] *)



Example measuresToObject_duplicate :
  measuresToObject [{| metric := "bugs"; value := Some "5" |};
                    {| metric := "coverage"; value := Some "70" |};
                    {| metric := "bugs"; value := Some "2" |}] !! "bugs"
  = Some (Some "2").
Proof. reflexivity. Qed.

Lemma measuresToObject_is_Some (l : list Measure) k :
  is_Some (measuresToObject l !! k) <-> k ∈ metric <$> l.
Proof. apply (foldInsert_is_Some metric value). Qed.



Lemma elem_of_allMetrics (from to : list Measure) k :
  k ∈ allMetrics (measuresToObject from) (measuresToObject to)
  <-> k ∈ metric <$> from \/ k ∈ metric <$> to.
Proof.
  unfold allMetrics.
  rewrite elem_of_elements, elem_of_list_to_set, elem_of_app, !elem_of_keys.
  by rewrite !measuresToObject_is_Some.
Qed.

(** Every entry of the [changes] of [compareMeasures]. *)
Lemma compareMeasures_lookup (from to : list Measure) :
  exists changes,
    compareMeasures (Items from) (Items to) = Available changes /\
    forall k,
      changes !! k =
        if decide (k ∈ metric <$> from \/ k ∈ metric <$> to)
        then Some (measureChange (measuresToObject from) (measuresToObject to) k)
        else None.
Proof.
  eexists. split; [reflexivity|]. intros k.
  rewrite foldl_insert_keys, lookup_empty.
  destruct (decide (k ∈ allMetrics _ _)) as [Hk|Hk];
    rewrite elem_of_allMetrics in Hk.
  - by rewrite decide_True.
  - by rewrite decide_False.
Qed.

(** C1. For every metric among the keys of either side, the [improved]
    flag of its change follows the polarity table: for [coverage] it holds
    iff [diff > 0]; for [bugs], [vulnerabilities], [code_smells] and
    [duplicated_lines_density] it holds iff [diff < 0]; for every other
    metric it is false. *)
Theorem compareMeasures_polarity (from to : list Measure) (k : string) :
  k ∈ (Object.keys (measuresToObject from) ++ Object.keys (measuresToObject to))%list ->
  exists changes c,
    compareMeasures (Items from) (Items to) = Available changes /\
    changes !! k = Some c /\
    (k = "coverage" ->
     (m_improved c = true <-> Num.ltb Num.zero (m_diff c) = true)) /\
    (k ∈ ["bugs"; "vulnerabilities"; "code_smells"; "duplicated_lines_density"] ->
     (m_improved c = true <-> Num.ltb (m_diff c) Num.zero = true)) /\
    (k ∉ ["coverage"; "bugs"; "vulnerabilities"; "code_smells";
          "duplicated_lines_density"] ->
     m_improved c = false).
Proof.
  rewrite elem_of_app, !elem_of_keys, !measuresToObject_is_Some. intros Hk.
  destruct (compareMeasures_lookup from to) as (changes & Heq & Hl).
  exists changes, (measureChange (measuresToObject from) (measuresToObject to) k).
  split; [done|]. split; [by rewrite Hl, decide_True|].
  unfold measureChange. simpl. split; [|split].
  - intros ->. done.
  - intros Hin. destruct (String.eqb_spec k "coverage") as [->|_].
    + elem_of_cases Hin ltac:(discriminate Hin).
    + unfold includes, lowerIsBetter. by rewrite bool_decide_eq_true_2.
  - intros Hout. destruct (String.eqb_spec k "coverage") as [->|_].
    + exfalso. apply Hout. left.
    + unfold includes, lowerIsBetter. rewrite bool_decide_eq_false_2; [done|].
      intros Hin. apply Hout. by right.
Qed.

Lemma compareMeasures_polarity_witness :
  "coverage" ∈ (Object.keys (measuresToObject [{| metric := "coverage"; value := Some "70" |}])
                ++ Object.keys (measuresToObject [{| metric := "coverage"; value := Some "85" |}]))%list /\
  exists changes c,
    compareMeasures (Items [{| metric := "coverage"; value := Some "70" |}])
                    (Items [{| metric := "coverage"; value := Some "85" |}])
      = Available changes /\
    changes !! "coverage" = Some c /\
    (m_improved c = true <-> Num.ltb Num.zero (m_diff c) = true).
Proof.
  assert ("coverage" ∈ (Object.keys (measuresToObject [{| metric := "coverage"; value := Some "70" |}])
                        ++ Object.keys (measuresToObject [{| metric := "coverage"; value := Some "85" |}]))%list)
    as Hk by (vm_compute; left).
  split; [exact Hk|].
  destruct (compareMeasures_polarity _ _ "coverage" Hk)
    as (changes & c & Heq & Hl & Hcov & _).
  exists changes, c. split; [exact Heq|]. split; [exact Hl|].
  apply Hcov. reflexivity.
Defined.

Example compareMeasures_coverage_70_85 :
  changeOf (compareMeasures (Items [{| metric := "coverage"; value := Some "70" |}])
                            (Items [{| metric := "coverage"; value := Some "85" |}]))
           "coverage"
  = Some {| m_from := "70"; m_to := "85"; m_diff := Num.of_Z 15; m_improved := true |}.
Proof. vm_compute. reflexivity. Qed.

Example compareMeasures_bugs_5_2 :
  changeOf (compareMeasures (Items [{| metric := "bugs"; value := Some "5" |}])
                            (Items [{| metric := "bugs"; value := Some "2" |}]))
           "bugs"
  = Some {| m_from := "5"; m_to := "2"; m_diff := Num.of_Z (-3); m_improved := true |}.
Proof. vm_compute. reflexivity. Qed.

Example compareMeasures_unknown_metric :
  changeOf (compareMeasures (Items [{| metric := "ncloc"; value := Some "100" |}])
                            (Items [{| metric := "ncloc"; value := Some "90" |}]))
           "ncloc"
  = Some {| m_from := "100"; m_to := "90"; m_diff := Num.of_Z (-10); m_improved := false |}.
Proof. vm_compute. reflexivity. Qed.



(** The claim of C6 fails at the empty string: it does not parse, and the
    display field shows ["0"], not the original (empty) string. *)
Lemma compareMeasures_empty_value_shown_as_0 :
  parseFloat (Some EmptyString) = Num.nan /\
  exists c,
    changeOf (compareMeasures (Items [{| metric := "ncloc"; value := Some EmptyString |}])
                              (Items [{| metric := "ncloc"; value := Some "12" |}]))
             "ncloc" = Some c /\
    m_diff c = Num.of_Z 12 /\
    m_from c = "0" /\ m_from c <> EmptyString.
Proof.
  split; [reflexivity|]. eexists. split; [vm_compute; reflexivity|].
  split; [reflexivity|]. split; [reflexivity|discriminate].
Qed.

(** C6, amended.  A value string that does not parse as a number enters
    [diff] as [0] and the comparison is still produced; the display field
    shows the original string when it is not empty, and ["0"] when it is
    the empty string. *)
Theorem compareMeasures_unparseable (from to : list Measure) (k s : string) :
  parseFloat (Some s) = Num.nan ->
  exists changes,
    compareMeasures (Items from) (Items to) = Available changes /\
    (measuresToObject from !! k = Some (Some s) ->
       exists c, changes !! k = Some c /\
         m_diff c =
           Num.sub (Num.or (parseFloat (Object.get (measuresToObject to) k)) Num.zero)
                   Num.zero /\
         m_from c = if decide (s = EmptyString) then "0" else s) /\
    (measuresToObject to !! k = Some (Some s) ->
       exists c, changes !! k = Some c /\
         m_diff c =
           Num.sub Num.zero
                   (Num.or (parseFloat (Object.get (measuresToObject from) k)) Num.zero) /\
         m_to c = if decide (s = EmptyString) then "0" else s).
Proof.
  intros Hnan.
  destruct (compareMeasures_lookup from to) as (changes & Heq & Hl).
  exists changes. split; [exact Heq|]. split.
  - intros Hs.
    assert (k ∈ metric <$> from) as Hk
      by (apply measuresToObject_is_Some; by rewrite Hs).
    rewrite Hl, decide_True by (by left).
    eexists. split; [reflexivity|]. unfold measureChange, Object.get. simpl.
    rewrite Hs, Hnan, or_string_Some. done.
  - intros Hs.
    assert (k ∈ metric <$> to) as Hk
      by (apply measuresToObject_is_Some; by rewrite Hs).
    rewrite Hl, decide_True by (by right).
    eexists. split; [reflexivity|]. unfold measureChange, Object.get. simpl.
    rewrite Hs, Hnan, or_string_Some. done.
Qed.

Lemma compareMeasures_unparseable_witness :
  parseFloat (Some "n/a") = Num.nan /\
  exists changes c,
    compareMeasures (Items [{| metric := "ncloc"; value := Some "n/a" |}])
                    (Items [{| metric := "ncloc"; value := Some "12" |}])
      = Available changes /\
    changes !! "ncloc" = Some c /\
    m_diff c = Num.of_Z 12 /\ m_from c = "n/a".
Proof.
  split; [reflexivity|].
  destruct (compareMeasures_unparseable
              [{| metric := "ncloc"; value := Some "n/a" |}]
              [{| metric := "ncloc"; value := Some "12" |}] "ncloc" "n/a" eq_refl)
    as (changes & Heq & Hfrom & _).
  destruct (Hfrom eq_refl) as (c & Hl & Hdiff & Hshown).
  exists changes, c. split; [exact Heq|]. split; [exact Hl|].
  split; [exact Hdiff|exact Hshown].
Defined.

(** ** [compareIssues] *)

Lemma severityCounts_lookup (l : list Issue) (sev : string) :
  severityCounts l !! sev =
    if decide (sev ∈ severities) then Some (countSeverity l sev) else None.
Proof. unfold severityCounts. by rewrite foldl_insert_keys, lookup_empty. Qed.

Lemma foldl_add_shift (a : Z) (l : list Z) :
  foldl (fun sum count => sum + count) a l = a + foldl (fun sum count => sum + count) 0 l.
Proof.
  revert a. induction l as [|x l IH]; intros a; cbn [foldl]; [lia|].
  rewrite (IH (a + x)), (IH (0 + x)). lia.
Qed.

Lemma foldl_add_perm (l1 l2 : list Z) :
  l1 ≡ₚ l2 ->
  forall a, foldl (fun sum count => sum + count) a l1
            = foldl (fun sum count => sum + count) a l2.
Proof.
  induction 1 as [|x l1 l2 _ IH|x y l|l1 l2 l3 _ IH1 _ IH2]; intros a; simpl.
  - done.
  - apply IH.
  - f_equal. lia.
  - by rewrite IH1.
Qed.

Lemma sumCounts_empty : sumCounts ∅ = 0.
Proof. unfold sumCounts, Object.values. by rewrite map_to_list_empty. Qed.

Lemma sumCounts_insert (counts : gmap string Z) (k : string) (n : Z) :
  counts !! k = None -> sumCounts (<[k := n]> counts) = n + sumCounts counts.
Proof.
  intros Hk. unfold sumCounts, Object.values.
  rewrite (foldl_add_perm _ ((k, n) :: map_to_list counts).*2).
  - simpl. apply foldl_add_shift.
  - apply fmap_Permutation. by apply map_to_list_insert.
Qed.

(** The total is the sum of the five per-severity counts. *)
Lemma sumCounts_severityCounts (l : list Issue) :
  sumCounts (severityCounts l) =
    countSeverity l "BLOCKER" + countSeverity l "CRITICAL" + countSeverity l "MAJOR"
    + countSeverity l "MINOR" + countSeverity l "INFO".
Proof.
  unfold severityCounts, severities. cbn [foldl].
  rewrite !sumCounts_insert, sumCounts_empty;
    [lia|by rewrite ?lookup_insert_ne, lookup_empty by done..].
Qed.

Lemma countSeverity_cons (issue : Issue) (l : list Issue) (sev : string) :
  countSeverity (issue :: l) sev =
    (if decide (severity issue = Some sev) then 1 else 0) + countSeverity l sev.
Proof.
  unfold countSeverity. rewrite filter_cons.
  destruct (decide _); simpl length; lia.
Qed.

(** The five counts add up to the number of issues of a recognized
    severity: each such issue is counted once, every other issue never. *)
Lemma sum_of_counts_recognized (l : list Issue) :
  countSeverity l "BLOCKER" + countSeverity l "CRITICAL" + countSeverity l "MAJOR"
  + countSeverity l "MINOR" + countSeverity l "INFO"
  = Z.of_nat (length (filter recognized l)).
Proof.
  induction l as [|issue l IH]; [done|].
  rewrite !countSeverity_cons, filter_cons.
  destruct (decide (recognized issue)) as [Hr|Hr];
    unfold recognized, severities in Hr; rewrite !fmap_cons, fmap_nil in Hr.
  - simpl length. rewrite Nat2Z.inj_succ, <- IH.
    elem_of_cases Hr ltac:(rewrite Hr; repeat case_decide; simplify_eq; try done; lia).
  - rewrite <- IH.
    repeat (case_decide; [exfalso; apply Hr; set_solver|]).
    lia.
Qed.

(** Every entry of the [changes] of [compareIssues], and its totals. *)
Lemma compareIssues_lookup (from to : list Issue) :
  exists ic,
    compareIssues (Items from) (Items to) = Available ic /\
    (forall sev,
       i_changes ic !! sev =
         if decide (sev ∈ severities)
         then Some (countChange (countSeverity from sev) (countSeverity to sev))
         else None) /\
    i_total ic = countChange (sumCounts (severityCounts from)) (sumCounts (severityCounts to)).
Proof.
  eexists. split; [reflexivity|]. split; [|reflexivity]. intros sev.
  cbn [i_changes]. cbv zeta.
  rewrite (foldl_insert_keys
             (fun sev => countChange (or_zero (severityCounts from !! sev))
                                     (or_zero (severityCounts to !! sev)))).
  rewrite lookup_empty, !severityCounts_lookup.
  destruct (decide (sev ∈ severities)); [|done].
  by rewrite !or_zero_Some.
Qed.

(** The claim of C3 fails: an issue of an unrecognized severity is not
    counted in the totals.  Here the "from" side holds one issue, and
    [total.from] is [0]. *)
Lemma compareIssues_unknown_severity_not_in_total :
  exists ic,
    compareIssues (Items [{| severity := Some "UNKNOWN" |}]) (Items []) = Available ic /\
    i_changes ic !! "UNKNOWN" = None /\
    c_from (i_total ic) = 0 /\
    c_from (i_total ic) <> Z.of_nat (length [{| severity := Some "UNKNOWN" |}]).
Proof.
  eexists. split; [reflexivity|].
  split; [vm_compute; reflexivity|]. split; [vm_compute; reflexivity|].
  vm_compute. discriminate.
Qed.

(** C3, amended.  Issues whose severity is none of [BLOCKER], [CRITICAL],
    [MAJOR], [MINOR], [INFO] have no entry in the per-severity breakdown,
    and they are not counted in the totals either: [total.from] and
    [total.to] count exactly the issues of a recognized severity. *)
Theorem compareIssues_unrecognized_severity (from to : list Issue) :
  exists ic,
    compareIssues (Items from) (Items to) = Available ic /\
    (forall sev, sev ∉ ["BLOCKER"; "CRITICAL"; "MAJOR"; "MINOR"; "INFO"] ->
                 i_changes ic !! sev = None) /\
    c_from (i_total ic) = Z.of_nat (length (filter recognized from)) /\
    c_to (i_total ic) = Z.of_nat (length (filter recognized to)).
Proof.
  destruct (compareIssues_lookup from to) as (ic & Heq & Hl & Ht).
  exists ic. split; [exact Heq|]. split.
  - intros sev Hsev. by rewrite Hl, decide_False.
  - rewrite Ht. simpl.
    by rewrite !sumCounts_severityCounts, !sum_of_counts_recognized.
Qed.

Lemma compareIssues_unrecognized_severity_witness :
  exists ic,
    compareIssues (Items [{| severity := Some "MAJOR" |}; {| severity := Some "UNKNOWN" |};
                          {| severity := None |}])
                  (Items [{| severity := Some "INFO" |}; {| severity := Some "info" |}])
      = Available ic /\
    i_changes ic !! "UNKNOWN" = None /\
    c_from (i_total ic) = 1 /\ c_to (i_total ic) = 1.
Proof.
  destruct (compareIssues_unrecognized_severity
              [{| severity := Some "MAJOR" |}; {| severity := Some "UNKNOWN" |};
               {| severity := None |}]
              [{| severity := Some "INFO" |}; {| severity := Some "info" |}])
    as (ic & Heq & Hnone & Hfrom & Hto).
  exists ic. split; [exact Heq|]. split.
  - apply Hnone. intros Hin. elem_of_cases Hin ltac:(discriminate Hin).
  - split; [rewrite Hfrom|rewrite Hto]; vm_compute; reflexivity.
Defined.

(** C4. For each of the five severities the entry of [changes] holds the
    number of issues of exactly that severity on each side, their
    difference [to - from], and [improved] iff that difference is
    negative.  The totals are the sums of the five per-severity counts on
    each side (so issues of another severity add nothing to them), with
    [diff = to - from] and [improved] iff [diff < 0]. *)
Theorem compareIssues_counts (from to : list Issue) :
  exists ic,
    compareIssues (Items from) (Items to) = Available ic /\
    (forall sev, sev ∈ ["BLOCKER"; "CRITICAL"; "MAJOR"; "MINOR"; "INFO"] ->
       exists c, i_changes ic !! sev = Some c /\
         c_from c = Z.of_nat (length (filter (fun issue => severity issue = Some sev) from)) /\
         c_to c = Z.of_nat (length (filter (fun issue => severity issue = Some sev) to)) /\
         c_diff c = c_to c - c_from c /\
         (c_improved c = true <-> c_diff c < 0)) /\
    c_from (i_total ic) =
      countSeverity from "BLOCKER" + countSeverity from "CRITICAL"
      + countSeverity from "MAJOR" + countSeverity from "MINOR" + countSeverity from "INFO" /\
    c_to (i_total ic) =
      countSeverity to "BLOCKER" + countSeverity to "CRITICAL"
      + countSeverity to "MAJOR" + countSeverity to "MINOR" + countSeverity to "INFO" /\
    c_diff (i_total ic) = c_to (i_total ic) - c_from (i_total ic) /\
    (c_improved (i_total ic) = true <-> c_diff (i_total ic) < 0).
Proof.
  destruct (compareIssues_lookup from to) as (ic & Heq & Hl & Ht).
  exists ic. split; [exact Heq|]. split.
  - intros sev Hsev. rewrite Hl, decide_True by done.
    eexists. split; [reflexivity|]. simpl.
    repeat split; try done; apply Z.ltb_lt.
  - rewrite Ht. simpl. rewrite !sumCounts_severityCounts.
    repeat split; try done; apply Z.ltb_lt.
Qed.

(** Three [MAJOR] issues before, one after. *)
Lemma compareIssues_counts_witness :
  exists ic c,
    compareIssues (Items [{| severity := Some "MAJOR" |}; {| severity := Some "MAJOR" |};
                          {| severity := Some "MAJOR" |}])
                  (Items [{| severity := Some "MAJOR" |}])
      = Available ic /\
    i_changes ic !! "MAJOR" = Some c /\
    c_from c = 3 /\ c_to c = 1 /\ c_diff c = -2 /\ c_improved c = true /\
    c_from (i_total ic) = 3 /\ c_to (i_total ic) = 1 /\
    c_diff (i_total ic) = -2 /\ c_improved (i_total ic) = true.
Proof.
  destruct (compareIssues_counts
              [{| severity := Some "MAJOR" |}; {| severity := Some "MAJOR" |};
               {| severity := Some "MAJOR" |}]
              [{| severity := Some "MAJOR" |}])
    as (ic & Heq & Hsev & Hfrom & Hto & Hdiff & Himp).
  destruct (Hsev "MAJOR") as (c & Hl & Hcf & Hct & Hcd & Hci).
  - do 2 right. left.
  - assert (c_from c = 3) as Hcf' by exact Hcf.
    assert (c_to c = 1) as Hct' by exact Hct.
    assert (c_diff c = -2) as Hcd' by (rewrite Hcd, Hcf', Hct'; reflexivity).
    assert (c_from (i_total ic) = 3) as Hfrom' by exact Hfrom.
    assert (c_to (i_total ic) = 1) as Hto' by exact Hto.
    assert (c_diff (i_total ic) = -2) as Hdiff'
      by (rewrite Hdiff, Hfrom', Hto'; reflexivity).
    exists ic, c. split; [exact Heq|]. split; [exact Hl|].
    split; [exact Hcf'|]. split; [exact Hct'|]. split; [exact Hcd'|].
    split; [apply Hci; rewrite Hcd'; reflexivity|].
    split; [exact Hfrom'|]. split; [exact Hto'|]. split; [exact Hdiff'|].
    apply Himp. rewrite Hdiff'. reflexivity.
Defined.

(** ** [generateSummary] *)

(** The loop over the entries of [changes] appends, in the order of the
    entries, the lines of the selected metrics. *)
Lemma summarizeMeasure_fold (l : list (string * MeasureChange)) (s : Summary) :
  s_qualityGate (foldl summarizeMeasure s l) = s_qualityGate s /\
  improvements (foldl summarizeMeasure s l) =
    (improvements s ++ (expectedLine <$> filter (selected true) l))%list /\
  degradations (foldl summarizeMeasure s l) =
    (degradations s ++ (expectedLine <$> filter (selected false) l))%list.
Proof.
  revert s. induction l as [|[k ch] l IH]; intros s.
  - simpl. by rewrite !app_nil_r.
  - cbn [foldl]. destruct (IH (summarizeMeasure s (k, ch))) as (Hq & Hi & Hd).
    rewrite Hq, Hi, Hd. clear IH Hq Hi Hd.
    rewrite !filter_cons.
    destruct (decide (selected true (k, ch))) as [Ht|Ht];
      destruct (decide (selected false (k, ch))) as [Hf|Hf];
      unfold selected in Ht, Hf; cbn [fst snd] in Ht, Hf;
      unfold summarizeMeasure; rewrite changed_nonzero;
      destruct (m_improved ch), (nonzero (m_diff ch));
      try (exfalso; intuition congruence);
      cbn [andb negb s_qualityGate improvements degradations
           pushImprovement pushDegradation fmap list_fmap];
      rewrite <- ?app_assoc; done.
Qed.

Lemma summarizeGate_lists (s : Summary) (b : Block QualityGateChange) :
  improvements (summarizeGate s b) = improvements s /\
  degradations (summarizeGate s b) = degradations s.
Proof.
  destruct b as [|g]; [done|]. simpl.
  by destruct (g_improved g), (g_degraded g).
Qed.

(** The two lists of [generateSummary], in the order the embedding
    produces them. *)
Lemma generateSummary_expected (c : Comparison) :
  improvements (generateSummary c)
    = (expectedMeasureLines true c ++ expectedIssueLines true c)%list /\
  degradations (generateSummary c)
    = (expectedMeasureLines false c ++ expectedIssueLines false c)%list.
Proof.
  unfold generateSummary, expectedMeasureLines, expectedIssueLines, measureEntries.
  set (s0 := summarizeGate _ _).
  assert (improvements s0 = [] /\ degradations s0 = []) as [Hi0 Hd0]
    by apply summarizeGate_lists.
  set (s1 := summarizeMeasures s0 _).
  assert (improvements s1 =
            expectedLine <$> filter (selected true)
                                    (match measuresChange c with
                                     | Available changes => map_to_list changes
                                     | Unavailable => []
                                     end) /\
          degradations s1 =
            expectedLine <$> filter (selected false)
                                    (match measuresChange c with
                                     | Available changes => map_to_list changes
                                     | Unavailable => []
                                     end)) as [Hi1 Hd1].
  { unfold s1, summarizeMeasures. destruct (measuresChange c) as [|changes]; [done|].
    destruct (summarizeMeasure_fold (Object.entries changes) s0) as (_ & Hi & Hd).
    rewrite Hi, Hd, Hi0, Hd0. done. }
  rewrite <- Hi1, <- Hd1. clearbody s1. clear.
  unfold summarizeIssues. destruct (issuesChange c) as [|ic]; [by rewrite !app_nil_r|].
  cbv zeta. destruct (Z.eqb_spec (c_diff (i_total ic)) 0) as [Hz|Hz]; cbn [negb].
  - rewrite !decide_False by tauto. by rewrite !app_nil_r.
  - destruct (c_improved (i_total ic)) eqn:Himp.
    + rewrite decide_True, decide_False by (intuition congruence).
      by rewrite app_nil_r.
    + rewrite decide_False, decide_True by (intuition congruence).
      by rewrite app_nil_r.
Qed.

(** C8. Read as collections without order, [improvements] and
    [degradations] hold one line ["<metric>: <from> -> <to>"] for every
    metric whose difference is nonzero, in [improvements] when its
    [improved] flag is set and in [degradations] otherwise, and, when
    issues are available and the total changed, the line
    ["Total issues: <from> -> <to> (<|diff|> fixed)"] in [improvements]
    when the total improved, else the same line ending in ["new)"] in
    [degradations]; a metric whose difference is zero has no line.  (A
    difference that is [NaN] is not a nonzero number and has no line.)
    Each metric has one entry, so it has at most one line. *)
Theorem generateSummary_lines (c : Comparison) :
  improvements (generateSummary c)
    ≡ₚ (expectedMeasureLines true c ++ expectedIssueLines true c)%list /\
  degradations (generateSummary c)
    ≡ₚ (expectedMeasureLines false c ++ expectedIssueLines false c)%list /\
  NoDup (measureEntries c).*1.
Proof.
  destruct (generateSummary_expected c) as [-> ->]. split; [done|]. split; [done|].
  unfold measureEntries. destruct (measuresChange c) as [|changes].
  - apply NoDup_nil_2.
  - apply NoDup_fst_map_to_list.
Qed.

Example generateSummary_example :
  exists s,
  summary (compareQualityData
             {| projectInfo := Some {| name := Some "pharmacy-pos" |};
                qualityGate := Some {| status := Some "ERROR" |};
                measures := Items [{| metric := "coverage"; value := Some "70" |};
                                   {| metric := "bugs"; value := Some "5" |};
                                   {| metric := "ncloc"; value := Some "1200" |};
                                   {| metric := "code_smells"; value := Some "8" |}];
                issues := Items [{| severity := Some "MAJOR" |};
                                 {| severity := Some "MAJOR" |};
                                 {| severity := Some "MINOR" |}];
                timestamp := Some "2025-05-01" |}
             {| projectInfo := Some {| name := Some "pharmacy-pos" |};
                qualityGate := Some {| status := Some "OK" |};
                measures := Items [{| metric := "coverage"; value := Some "85" |};
                                   {| metric := "bugs"; value := Some "7" |};
                                   {| metric := "ncloc"; value := Some "1100" |};
                                   {| metric := "code_smells"; value := Some "8" |}];
                issues := Items [{| severity := Some "MAJOR" |}];
                timestamp := Some "2025-05-25" |})
  = Some s /\
  s_qualityGate s = "Improved (Failed -> Passed)" /\
  improvements s ≡ₚ ["coverage: 70 -> 85"; "Total issues: 3 -> 1 (2 fixed)"] /\
  degradations s ≡ₚ ["bugs: 5 -> 7"; "ncloc: 1200 -> 1100"].
Proof.
  eexists. split; [vm_compute; reflexivity|].
  split; [reflexivity|]. split; [reflexivity|apply perm_swap].
Qed.

(** ** [compareQualityData] *)

(** C7. [compareQualityData] returns a comparison for every pair of
    snapshot objects, whatever fields they lack.  Each block is what its
    own sub-comparison gives on its own two inputs, and it is available
    exactly when both are usable: both gates present, both [measures]
    arrays, both [issues] arrays; otherwise it is [{available: false}].
    The summary is always produced, from these three blocks. *)
Theorem compareQualityData_degrades_per_block (fromData toData : Snapshot) :
  qualityGateChange (compareQualityData fromData toData)
    = compareQualityGate (qualityGate fromData) (qualityGate toData) /\
  measuresChange (compareQualityData fromData toData)
    = compareMeasures (measures fromData) (measures toData) /\
  issuesChange (compareQualityData fromData toData)
    = compareIssues (issues fromData) (issues toData) /\
  available (qualityGateChange (compareQualityData fromData toData))
    = present (qualityGate fromData) && present (qualityGate toData) /\
  available (measuresChange (compareQualityData fromData toData))
    = isArray (measures fromData) && isArray (measures toData) /\
  available (issuesChange (compareQualityData fromData toData))
    = isArray (issues fromData) && isArray (issues toData) /\
  exists s,
    summary (compareQualityData fromData toData) = Some s /\
    improvements s
      ≡ₚ (expectedMeasureLines true (compareQualityData fromData toData)
          ++ expectedIssueLines true (compareQualityData fromData toData))%list /\
    degradations s
      ≡ₚ (expectedMeasureLines false (compareQualityData fromData toData)
          ++ expectedIssueLines false (compareQualityData fromData toData))%list.
Proof.
  split; [done|]. split; [done|]. split; [done|].
  split; [|split; [|split]].
  - cbn [qualityGateChange compareQualityData].
    by destruct (qualityGate fromData), (qualityGate toData).
  - cbn [measuresChange compareQualityData].
    by destruct (measures fromData), (measures toData).
  - cbn [issuesChange compareQualityData].
    by destruct (issues fromData), (issues toData).
  - eexists. split; [reflexivity|].
    match goal with
    | |- improvements (generateSummary ?c) ≡ₚ _ /\ _ =>
        destruct (generateSummary_expected c) as [-> ->]
    end.
    done.
Qed.

Example compareQualityData_nothing_to_compare :
  compareQualityData
    {| projectInfo := None; qualityGate := None; measures := Missing;
       issues := NonArray; timestamp := None |}
    {| projectInfo := None; qualityGate := Some {| status := Some "OK" |};
       measures := Items []; issues := Items []; timestamp := None |}
  = {| project := "Unknown"; fromDate := "Unknown"; toDate := "Unknown";
       qualityGateChange := Unavailable;
       measuresChange := Unavailable;
       issuesChange := Unavailable;
       summary := Some {| s_qualityGate := "No change";
                          improvements := []; degradations := [] |} |}.
Proof. reflexivity. Qed.

Example compareQualityData_measures_missing :
  exists c,
    compareQualityData
      {| projectInfo := None; qualityGate := Some {| status := Some "OK" |};
         measures := Missing;
         issues := Items [{| severity := Some "INFO" |}]; timestamp := None |}
      {| projectInfo := None; qualityGate := Some {| status := Some "ERROR" |};
         measures := Items [{| metric := "bugs"; value := Some "1" |}];
         issues := Items [{| severity := Some "INFO" |}; {| severity := Some "BLOCKER" |}];
         timestamp := None |} = c /\
    measuresChange c = Unavailable /\
    available (qualityGateChange c) = true /\
    available (issuesChange c) = true /\
    summary c = Some {| s_qualityGate := "Degraded (Passed -> Failed)";
                        improvements := [];
                        degradations := ["Total issues: 1 -> 2 (1 new)"] |}.
Proof. eexists. split; [reflexivity|]. repeat split; vm_compute; reflexivity. Qed.

(** * Further properties of the comparison engine *)

#[local] Set Warnings "-clear-no-such-hyp".

(** ** Signs of differences *)

(** Rounding commutes with the sign. *)
Lemma binary_round_aux_opp (mx ex : Z) (lx : location) :
  binary_round_aux Num.prec Num.emax true mx ex lx
  = SFopp (binary_round_aux Num.prec Num.emax false mx ex lx).
Proof.
  unfold binary_round_aux.
  destruct (shr_fexp _ _ mx ex lx) as [mrs' e'].
  destruct (shr_fexp _ _ _ e' loc_Exact) as [mrs'' e''].
  destruct (shr_m mrs''); [done| |done].
  by destruct (_ <=? _)%Z.
Qed.

Lemma binary_normalize_opp (z e : Z) :
  z <> 0 ->
  binary_normalize Num.prec Num.emax (- z) e false
  = SFopp (binary_normalize Num.prec Num.emax z e false).
Proof.
  intros Hz. destruct z as [|p|p]; [done| |]; simpl; unfold binary_round;
    destruct (shl_align _ _ _) as [mz ez]; rewrite binary_round_aux_opp.
  - done.
  - by destruct (binary_round_aux _ _ false _ _ _) as [[]|[]| |[] ? ?].
Qed.

(** [x > 0] and [x < 0] on a number. *)
Lemma ltb_zero_opp (x : spec_float) :
  Num.ltb Num.zero (SFopp x) = Num.ltb x Num.zero.
Proof. by destruct x as [[]|[]| |[] ? ?]. Qed.

(** [a - b > 0] exactly when [b - a < 0]. *)
Lemma sub_swap (a b : spec_float) :
  Num.ltb Num.zero (Num.sub a b) = Num.ltb (Num.sub b a) Num.zero.
Proof.
  destruct a as [sa|sa| |sa ma ea], b as [sb|sb| |sb mb eb];
    try done; try (by destruct sa); try (by destruct sb); try (by destruct sa, sb).
  unfold Num.sub, SFsub. rewrite (Z.min_comm eb ea).
  set (za := cond_Zopp sa _). set (zb := cond_Zopp sb _).
  destruct (decide (za - zb = 0)) as [Hz|Hz].
  - replace (zb - za) with 0 by lia. by rewrite Hz.
  - replace (zb - za) with (- (za - zb)) by lia.
    rewrite binary_normalize_opp by done.
    by destruct (binary_normalize _ _ (za - zb) _ _) as [[]|[]| |[] ? ?].
Qed.

(** A number is not both above and below zero. *)
Lemma ltb_zero_exclusive (x : spec_float) :
  Num.ltb Num.zero x && Num.ltb x Num.zero = false.
Proof. by destruct x as [[]|[]| |[] ? ?]. Qed.

(** A nonzero number is above or below zero. *)
Lemma nonzero_sign (x : spec_float) :
  nonzero x = Num.ltb Num.zero x || Num.ltb x Num.zero.
Proof. by destruct x as [[]|[]| |[] ? ?]. Qed.

(** [x - x] is [+0], or [NaN] when [x] is infinite or [NaN]. *)
Lemma sub_diag (x : spec_float) :
  Num.sub x x = Num.zero \/ Num.sub x x = Num.nan.
Proof.
  destruct x as [[]|[]| |s m e]; try (by left); try (by right).
  left. unfold Num.sub, SFsub. by rewrite Z.sub_diag.
Qed.

Lemma sub_diag_not_changed (x : spec_float) :
  nonzero (Num.sub x x) = false /\
  Num.ltb Num.zero (Num.sub x x) = false /\
  Num.ltb (Num.sub x x) Num.zero = false.
Proof. by destruct (sub_diag x) as [-> | ->]. Qed.

(** ** The summary of an assembled comparison *)

Lemma summarizeIssues_qualityGate (s : Summary) (b : Block IssuesChange) :
  s_qualityGate (summarizeIssues s b) = s_qualityGate s.
Proof.
  destruct b as [|ic]; [done|]. simpl.
  by destruct (negb (c_diff (i_total ic) =? 0)%Z), (c_improved (i_total ic)).
Qed.

Lemma summarizeMeasures_qualityGate (s : Summary) (b : Block (gmap string MeasureChange)) :
  s_qualityGate (summarizeMeasures s b) = s_qualityGate s.
Proof.
  destruct b as [|changes]; [done|].
  apply (summarizeMeasure_fold (Object.entries changes) s).
Qed.

(** The gate text depends on the gate block alone. *)
Lemma generateSummary_qualityGate (c : Comparison) :
  s_qualityGate (generateSummary c) =
    match qualityGateChange c with
    | Available g =>
        if g_improved g then "Improved (Failed -> Passed)"
        else if g_degraded g then "Degraded (Passed -> Failed)"
        else "No change"
    | Unavailable => "No change"
    end.
Proof.
  unfold generateSummary.
  rewrite summarizeIssues_qualityGate, summarizeMeasures_qualityGate.
  destruct (qualityGateChange c) as [|g]; [done|]. simpl.
  by destruct (g_improved g), (g_degraded g).
Qed.

(** The gate text of a comparison of two snapshots: it reads
    ["Improved (Failed -> Passed)"] exactly when both snapshots have a gate
    and the status moves from a value other than ["OK"] to ["OK"],
    ["Degraded (Passed -> Failed)"] exactly when both have a gate and it
    moves from ["OK"] to another value, and ["No change"] in every other
    case: a gate missing on either side, equal statuses, or two statuses
    that both differ from ["OK"]. *)
Theorem summary_qualityGate_text (fromData toData : Snapshot) :
  exists s,
    summary (compareQualityData fromData toData) = Some s /\
    (s_qualityGate s = "Improved (Failed -> Passed)" <->
       exists f t, qualityGate fromData = Some f /\ qualityGate toData = Some t /\
                   status f <> Some "OK" /\ status t = Some "OK") /\
    (s_qualityGate s = "Degraded (Passed -> Failed)" <->
       exists f t, qualityGate fromData = Some f /\ qualityGate toData = Some t /\
                   status f = Some "OK" /\ status t <> Some "OK") /\
    (s_qualityGate s = "No change" <->
       qualityGate fromData = None \/ qualityGate toData = None \/
       exists f t, qualityGate fromData = Some f /\ qualityGate toData = Some t /\
                   (status f = Some "OK" <-> status t = Some "OK")).
Proof.
  eexists. split; [reflexivity|].
  rewrite generateSummary_qualityGate. cbn [qualityGateChange].
  destruct (qualityGate fromData) as [[sf]|], (qualityGate toData) as [[st]|];
    cbn [compareQualityGate status g_improved g_degraded].
  - destruct (is_OK sf) eqn:Hf, (is_OK st) eqn:Ht; cbn [negb andb];
      first [apply is_OK_true in Hf | apply is_OK_false in Hf];
      first [apply is_OK_true in Ht | apply is_OK_false in Ht];
      naive_solver.
  - naive_solver.
  - naive_solver.
  - naive_solver.
Qed.

(** ** Comparing a snapshot with itself *)

Lemma filter_none {A} (P : A -> Prop) `{!forall x, Decision (P x)} (l : list A) :
  (forall x, x ∈ l -> ~ P x) -> filter P l = [].
Proof.
  induction l as [|x l IH]; intros Hall; [done|].
  rewrite filter_cons_False by (apply Hall; left).
  apply IH. intros y Hy. apply Hall. by right.
Qed.

Lemma measureChange_same (obj : gmap string (option string)) (k : string) :
  m_improved (measureChange obj obj k) = false /\
  nonzero (m_diff (measureChange obj obj k)) = false.
Proof.
  unfold measureChange. cbn [m_improved m_diff].
  destruct (sub_diag_not_changed
              (Num.or (parseFloat (Object.get obj k)) Num.zero)) as (Hn & Hp & Hm).
  rewrite Hn, Hp, Hm. by repeat case_match.
Qed.

(** Comparing a snapshot with itself reports nothing: the gate text is
    ["No change"] and both lists are empty, whatever the snapshot holds
    (values that do not parse, infinite values, duplicate metrics, issues
    of any severity). *)
Theorem compareQualityData_same_snapshot (data : Snapshot) :
  summary (compareQualityData data data)
  = Some {| s_qualityGate := "No change"; improvements := []; degradations := [] |}.
Proof.
  cbn [summary compareQualityData]. f_equal.
  match goal with |- generateSummary ?c = _ => set (result := c) end.
  assert (s_qualityGate (generateSummary result) = "No change") as Hq.
  { rewrite generateSummary_qualityGate. unfold result. cbn [qualityGateChange].
    destruct (qualityGate data) as [[st]|]; [|done]. simpl.
    by destruct (is_OK st). }
  assert (forall flag, expectedMeasureLines flag result = []) as Hm.
  { intros flag. unfold expectedMeasureLines, measureEntries, result.
    cbn [measuresChange]. destruct (measures data) as [| |l]; [done..|].
    destruct (compareMeasures_lookup l l) as (changes & -> & Hl).
    rewrite filter_none; [done|]. intros [k c] Hin [Hnz _].
    apply elem_of_map_to_list in Hin. rewrite Hl in Hin.
    case_decide; [|done]. injection Hin as <-. cbn [snd] in Hnz.
    by rewrite (proj2 (measureChange_same _ k)) in Hnz. }
  assert (forall flag, expectedIssueLines flag result = []) as Hi.
  { intros flag. unfold expectedIssueLines, result. cbn [issuesChange].
    destruct (issues data) as [| |l]; [done..|].
    destruct (compareIssues_lookup l l) as (ic & -> & _ & Ht).
    cbv zeta. rewrite Ht. cbn [c_diff countChange].
    rewrite decide_False; [done|]. intros [Hd _]. lia. }
  destruct (generateSummary_expected result) as [Himp Hdeg].
  rewrite Hm, Hi in Himp, Hdeg.
  destruct (generateSummary result) as [q i d]. simpl in *. by subst.
Qed.

(** ** Reversing the direction of a comparison *)

Lemma countChange_reversed (a b : Z) :
  countChange b a = reversedCount (countChange a b).
Proof.
  unfold countChange, reversedCount. simpl. f_equal; [lia|].
  destruct (Z.ltb_spec (a - b) 0), (Z.ltb_spec 0 (b - a)); lia || done.
Qed.

(** Swapping the two sides of [compareIssues] swaps [from] and [to] in
    every entry and in the total and negates [diff]; [improved] then holds
    exactly when the difference was positive, so no entry is an improvement
    in both directions, and an entry whose difference is not zero is an
    improvement in exactly one. *)
Theorem compareIssues_reversed (from to : list Issue) :
  exists ic ic',
    compareIssues (Items from) (Items to) = Available ic /\
    compareIssues (Items to) (Items from) = Available ic' /\
    (forall sev, i_changes ic' !! sev = reversedCount <$> i_changes ic !! sev) /\
    i_total ic' = reversedCount (i_total ic) /\
    (forall sev, match i_changes ic !! sev with
                 | Some c =>
                     c_improved (reversedCount c) = negb (c_improved c) && negb (c_diff c =? 0)%Z
                 | None => True
                 end) /\
    c_improved (reversedCount (i_total ic))
      = negb (c_improved (i_total ic)) && negb (c_diff (i_total ic) =? 0)%Z.
Proof.
  destruct (compareIssues_lookup from to) as (ic & Heq & Hl & Ht).
  destruct (compareIssues_lookup to from) as (ic' & Heq' & Hl' & Ht').
  assert (forall c : CountChange,
            c_improved c = (c_diff c <? 0)%Z ->
            c_improved (reversedCount c) = negb (c_improved c) && negb (c_diff c =? 0)%Z)
    as Hflag.
  { intros c ->. simpl.
    destruct (Z.ltb_spec 0 (c_diff c)), (Z.ltb_spec (c_diff c) 0),
      (Z.eqb_spec (c_diff c) 0); simpl; lia || done. }
  exists ic, ic'. split; [done|]. split; [done|]. split; [|split; [|split]].
  - intros sev. rewrite Hl, Hl'. case_decide; [|done]. simpl.
    by rewrite countChange_reversed.
  - by rewrite Ht, Ht', countChange_reversed.
  - intros sev. rewrite Hl. case_decide; [|done]. by apply Hflag.
  - rewrite Ht. by apply Hflag.
Qed.

(** Swapping the two gates swaps [improved] and [degraded]; the two flags
    never hold together. *)
Theorem compareQualityGate_reversed (from to : QualityGate) :
  exists g g',
    compareQualityGate (Some from) (Some to) = Available g /\
    compareQualityGate (Some to) (Some from) = Available g' /\
    fromStatus g' = toStatus g /\ toStatus g' = fromStatus g /\
    g_improved g' = g_degraded g /\ g_degraded g' = g_improved g /\
    g_improved g && g_degraded g = false.
Proof.
  eexists _, _. split; [reflexivity|]. split; [reflexivity|]. simpl.
  destruct (is_OK (status from)), (is_OK (status to)); done.
Qed.

Lemma includes_polar (k : string) :
  String.eqb k "coverage" || includes lowerIsBetter k = bool_decide (k ∈ polarMetrics).
Proof.
  unfold includes, lowerIsBetter, polarMetrics.
  destruct (String.eqb_spec k "coverage") as [->|Hk]; cbn [orb].
  - symmetry. apply bool_decide_eq_true_2. left.
  - apply bool_decide_ext. rewrite (elem_of_cons _ k "coverage"). tauto.
Qed.

Lemma measureChange_reversed (fromObj toObj : gmap string (option string)) (k : string) :
  let c := measureChange fromObj toObj k in
  let c' := measureChange toObj fromObj k in
  m_from c' = m_to c /\ m_to c' = m_from c /\
  Num.ltb Num.zero (m_diff c') = Num.ltb (m_diff c) Num.zero /\
  Num.ltb (m_diff c') Num.zero = Num.ltb Num.zero (m_diff c) /\
  nonzero (m_diff c') = nonzero (m_diff c) /\
  m_improved c' = nonzero (m_diff c) && negb (m_improved c) && bool_decide (k ∈ polarMetrics).
Proof.
  intros c c'. unfold c, c', measureChange. cbn [m_from m_to m_diff m_improved].
  set (a := Num.or (parseFloat (Object.get fromObj k)) Num.zero).
  set (b := Num.or (parseFloat (Object.get toObj k)) Num.zero).
  assert (Num.ltb Num.zero (Num.sub a b) = Num.ltb (Num.sub b a) Num.zero) as H1
    by apply sub_swap.
  assert (Num.ltb (Num.sub a b) Num.zero = Num.ltb Num.zero (Num.sub b a)) as H2
    by (symmetry; apply sub_swap).
  split; [done|]. split; [done|]. split; [done|]. split; [done|].
  split; [by rewrite !nonzero_sign, H1, H2, orb_comm|].
  rewrite <- includes_polar, nonzero_sign, H1, H2.
  pose proof (ltb_zero_exclusive (Num.sub b a)) as Hx.
  destruct (String.eqb k "coverage"), (includes lowerIsBetter k),
    (Num.ltb Num.zero (Num.sub b a)), (Num.ltb (Num.sub b a) Num.zero); done.
Qed.

(** Swapping the two sides of [compareMeasures] swaps the displayed
    values of every metric and the sign of its difference.  A metric is
    never an improvement in both directions; a metric of the polarity
    table whose difference is a nonzero number is an improvement in
    exactly one direction, and any other metric in neither. *)
Theorem compareMeasures_reversed (from to : list Measure) :
  exists changes changes',
    compareMeasures (Items from) (Items to) = Available changes /\
    compareMeasures (Items to) (Items from) = Available changes' /\
    forall k,
      match changes !! k, changes' !! k with
      | Some c, Some c' =>
          m_from c' = m_to c /\ m_to c' = m_from c /\
          Num.ltb Num.zero (m_diff c') = Num.ltb (m_diff c) Num.zero /\
          Num.ltb (m_diff c') Num.zero = Num.ltb Num.zero (m_diff c) /\
          nonzero (m_diff c') = nonzero (m_diff c) /\
          m_improved c' =
            nonzero (m_diff c) && negb (m_improved c) && bool_decide (k ∈ polarMetrics)
      | None, None => True
      | _, _ => False
      end.
Proof.
  destruct (compareMeasures_lookup from to) as (changes & Heq & Hl).
  destruct (compareMeasures_lookup to from) as (changes' & Heq' & Hl').
  exists changes, changes'. split; [done|]. split; [done|]. intros k.
  rewrite Hl, Hl'.
  destruct (decide (k ∈ metric <$> from \/ k ∈ metric <$> to)) as [Hk|Hk].
  - rewrite decide_True by tauto. apply measureChange_reversed.
  - by rewrite decide_False by tauto.
Qed.

(** ** The order of the entries of a snapshot *)

Lemma foldInsert_permutation {A V} (key : A -> string) (val : A -> V) (l1 l2 : list A) :
  l1 ≡ₚ l2 -> NoDup (key <$> l1) ->
  forall acc, foldInsert key val acc l1 = foldInsert key val acc l2.
Proof.
  induction 1 as [|x l1 l2 Hp IH|x y l|l1 l2 l3 Hp1 IH1 Hp2 IH2]; intros Hnd acc.
  - done.
  - apply IH. by apply NoDup_cons_1_2 in Hnd.
  - unfold foldInsert. cbn [foldl]. f_equal. apply insert_insert_ne.
    rewrite !fmap_cons in Hnd. apply NoDup_cons_1_1 in Hnd.
    intros Heq. apply Hnd. rewrite Heq. left.
  - rewrite IH1 by done. apply IH2. by rewrite <- Hp1.
Qed.

(** When no metric occurs twice on a side, the order in which the
    measures are listed does not matter to [compareMeasures]. *)
Theorem compareMeasures_order_irrelevant (from from' to to' : list Measure) :
  from ≡ₚ from' -> to ≡ₚ to' ->
  NoDup (metric <$> from) -> NoDup (metric <$> to) ->
  compareMeasures (Items from) (Items to) = compareMeasures (Items from') (Items to').
Proof.
  intros Hf Ht Hnf Hnt. unfold compareMeasures.
  assert (measuresToObject from = measuresToObject from') as ->
    by apply (foldInsert_permutation metric value _ _ Hf Hnf).
  assert (measuresToObject to = measuresToObject to') as ->
    by apply (foldInsert_permutation metric value _ _ Ht Hnt).
  done.
Qed.

Lemma compareMeasures_order_irrelevant_witness :
  compareMeasures
    (Items [{| metric := "bugs"; value := Some "5" |};
            {| metric := "coverage"; value := Some "70" |}])
    (Items [{| metric := "coverage"; value := Some "85" |};
            {| metric := "bugs"; value := Some "2" |}])
  = compareMeasures
      (Items [{| metric := "coverage"; value := Some "70" |};
              {| metric := "bugs"; value := Some "5" |}])
      (Items [{| metric := "bugs"; value := Some "2" |};
              {| metric := "coverage"; value := Some "85" |}]).
Proof.
  apply compareMeasures_order_irrelevant.
  - apply perm_swap.
  - apply perm_swap.
  - apply NoDup_cons. split; [|apply NoDup_singleton].
    intros Hin. apply list_elem_of_singleton in Hin. discriminate Hin.
  - apply NoDup_cons. split; [|apply NoDup_singleton].
    intros Hin. apply list_elem_of_singleton in Hin. discriminate Hin.
Defined.

Lemma countSeverity_permutation (l l' : list Issue) (sev : string) :
  l ≡ₚ l' -> countSeverity l sev = countSeverity l' sev.
Proof. intros Hp. unfold countSeverity. by rewrite Hp. Qed.

(** The order in which the issues are listed does not matter to
    [compareIssues]. *)
Theorem compareIssues_order_irrelevant (from from' to to' : list Issue) :
  from ≡ₚ from' -> to ≡ₚ to' ->
  compareIssues (Items from) (Items to) = compareIssues (Items from') (Items to').
Proof.
  intros Hf Ht. unfold compareIssues.
  assert (severityCounts from = severityCounts from') as ->.
  { unfold severityCounts, severities. cbn [foldl].
    by rewrite !(countSeverity_permutation from from'). }
  assert (severityCounts to = severityCounts to') as ->.
  { unfold severityCounts, severities. cbn [foldl].
    by rewrite !(countSeverity_permutation to to'). }
  done.
Qed.

Lemma compareIssues_order_irrelevant_witness :
  compareIssues (Items [{| severity := Some "MAJOR" |}; {| severity := Some "INFO" |}])
                (Items [{| severity := None |}; {| severity := Some "MAJOR" |}])
  = compareIssues (Items [{| severity := Some "INFO" |}; {| severity := Some "MAJOR" |}])
                  (Items [{| severity := Some "MAJOR" |}; {| severity := None |}]).
Proof. apply compareIssues_order_irrelevant; apply perm_swap. Defined.

(** ** Where a change lands in the summary *)

Lemma summary_line_membership (c : Comparison) changes (k : string) (ch : MeasureChange) :
  measuresChange c = Available changes ->
  changes !! k = Some ch ->
  nonzero (m_diff ch) = true ->
  expectedLine (k, ch)
    ∈ (if m_improved ch then improvements (generateSummary c)
       else degradations (generateSummary c)).
Proof.
  intros Hc Hk Hnz.
  destruct (generateSummary_expected c) as [Hi Hd].
  assert (forall flag, m_improved ch = flag ->
                       expectedLine (k, ch) ∈ expectedMeasureLines flag c) as Hin.
  { intros flag Hflag. unfold expectedMeasureLines, measureEntries. rewrite Hc.
    apply list_elem_of_fmap_2, list_elem_of_filter. split; [done|].
    by apply elem_of_map_to_list. }
  destruct (m_improved ch) eqn:Hflag.
  - rewrite Hi. apply elem_of_app. left. by apply Hin.
  - rewrite Hd. apply elem_of_app. left. by apply Hin.
Qed.

(** In the summary of a comparison of two snapshots, a metric whose
    difference is a nonzero number has its line in [improvements] when it
    is [coverage] and rose, or one of [bugs], [vulnerabilities],
    [code_smells], [duplicated_lines_density] and fell; in every other case
    its line is in [degradations].  In particular every change of a metric
    outside the polarity table is listed as a degradation, whatever its
    direction.  The metric is not the name of a member of
    [Object.prototype]. *)
Theorem summary_measure_line (fromData toData : Snapshot) (from to : list Measure)
    (k : string) :
  measures fromData = Items from ->
  measures toData = Items to ->
  k ∈ metric <$> from \/ k ∈ metric <$> to ->
  k ∉ prototypeNames ->
  exists s ch,
    summary (compareQualityData fromData toData) = Some s /\
    changeOf (measuresChange (compareQualityData fromData toData)) k = Some ch /\
    (nonzero (m_diff ch) = true ->
     let line := k ++ ": " ++ m_from ch ++ " -> " ++ m_to ch in
     (k = "coverage" ->
      if Num.ltb Num.zero (m_diff ch) then line ∈ improvements s
      else line ∈ degradations s) /\
     (k ∈ lowerIsBetter ->
      if Num.ltb (m_diff ch) Num.zero then line ∈ improvements s
      else line ∈ degradations s) /\
     (k ∉ polarMetrics -> line ∈ degradations s)).
Proof.
  intros Hf Ht Hk _.
  destruct (compareMeasures_lookup from to) as (changes & Heq & Hl).
  specialize (Hl k). rewrite decide_True in Hl by done.
  set (ch := measureChange (measuresToObject from) (measuresToObject to) k) in *.
  eexists _, ch. split; [reflexivity|].
  cbn [measuresChange compareQualityData]. rewrite Hf, Ht, Heq. split; [exact Hl|].
  intros Hnz. set (line := k ++ ": " ++ m_from ch ++ " -> " ++ m_to ch).
  match goal with
  | |- context [improvements (generateSummary ?c)] => set (result := c)
  end.
  assert (measuresChange result = Available changes) as Hc by done.
  pose proof (summary_line_membership result changes k ch Hc Hl Hnz) as Hline.
  change (expectedLine (k, ch)) with line in Hline.
  assert (m_improved ch =
            if String.eqb k "coverage" then Num.ltb Num.zero (m_diff ch)
            else if includes lowerIsBetter k then Num.ltb (m_diff ch) Num.zero
            else false) as Himp by done.
  clearbody ch line. split; [|split].
  - intros Hcov. rewrite Hcov, String.eqb_refl in Himp.
    rewrite <- Himp. by destruct (m_improved ch).
  - intros Hin. destruct (String.eqb_spec k "coverage") as [->|Hne].
    + elem_of_cases Hin ltac:(discriminate Hin).
    + unfold includes in Himp. rewrite bool_decide_eq_true_2 in Himp by done.
      rewrite <- Himp. by destruct (m_improved ch).
  - intros Hout. pose proof (includes_polar k) as Hp.
    rewrite (bool_decide_eq_false_2 _ Hout) in Hp.
    apply orb_false_elim in Hp as [H1 H2]. rewrite H1, H2 in Himp.
    by rewrite Himp in Hline.
Qed.

Lemma summary_measure_line_witness :
  exists s,
    summary (compareQualityData
               {| projectInfo := None; qualityGate := None;
                  measures := Items [{| metric := "ncloc"; value := Some "1200" |}];
                  issues := Missing; timestamp := None |}
               {| projectInfo := None; qualityGate := None;
                  measures := Items [{| metric := "ncloc"; value := Some "1100" |}];
                  issues := Missing; timestamp := None |}) = Some s /\
    "ncloc: 1200 -> 1100" ∈ degradations s.
Proof.
  destruct (summary_measure_line
              {| projectInfo := None; qualityGate := None;
                 measures := Items [{| metric := "ncloc"; value := Some "1200" |}];
                 issues := Missing; timestamp := None |}
              {| projectInfo := None; qualityGate := None;
                 measures := Items [{| metric := "ncloc"; value := Some "1100" |}];
                 issues := Missing; timestamp := None |}
              [{| metric := "ncloc"; value := Some "1200" |}]
              [{| metric := "ncloc"; value := Some "1100" |}]
              "ncloc" eq_refl eq_refl)
    as (s & ch & Hs & Hch & Hline).
  - left. left.
  - intros Hin. elem_of_cases Hin ltac:(discriminate Hin).
  - exists s. split; [exact Hs|].
    vm_compute in Hch. injection Hch as <-.
    destruct (Hline eq_refl) as (_ & _ & Hout). apply Hout.
    intros Hin. elem_of_cases Hin ltac:(discriminate Hin).
Defined.

(** The line about issues in the summary of a comparison of two
    snapshots shows the numbers of issues of a recognized severity on the
    two sides and their distance: it is the last line of [improvements],
    ending in ["fixed)"], when the second number is smaller, the last line
    of [degradations], ending in ["new)"], when it is larger, and there is
    no such line when the two numbers are equal, whatever the severities
    are.  The lines before it are those of the metrics. *)
Theorem summary_issues_line (fromData toData : Snapshot) (from to : list Issue) :
  issues fromData = Items from ->
  issues toData = Items to ->
  let a := Z.of_nat (length (filter recognized from)) in
  let b := Z.of_nat (length (filter recognized to)) in
  exists s,
    summary (compareQualityData fromData toData) = Some s /\
    improvements s
    = (expectedMeasureLines true (compareQualityData fromData toData)
         ++ (if (b <? a)%Z then
               [("Total issues: " ++ number_to_string a ++ " -> " ++ number_to_string b
                   ++ " (" ++ number_to_string (a - b) ++ " fixed)")%string]
             else []))%list /\
    degradations s
    = (expectedMeasureLines false (compareQualityData fromData toData)
         ++ (if (a <? b)%Z then
               [("Total issues: " ++ number_to_string a ++ " -> " ++ number_to_string b
                   ++ " (" ++ number_to_string (b - a) ++ " new)")%string]
             else []))%list.
Proof.
  intros Hf Ht a b. eexists. split; [reflexivity|].
  match goal with
  | |- context [improvements (generateSummary ?c)] => set (result := c)
  end.
  destruct (generateSummary_expected result) as [-> ->].
  change (expectedMeasureLines true (compareQualityData fromData toData))
    with (expectedMeasureLines true result).
  change (expectedMeasureLines false (compareQualityData fromData toData))
    with (expectedMeasureLines false result).
  assert (issuesChange result = compareIssues (Items from) (Items to)) as Hic
    by (cbn [issuesChange result]; by rewrite Hf, Ht).
  unfold expectedIssueLines. rewrite Hic. clearbody result.
  destruct (compareIssues_lookup from to) as (ic & -> & _ & Htot).
  cbv zeta. rewrite Htot, !sumCounts_severityCounts, !sum_of_counts_recognized.
  fold a b. cbn [countChange c_from c_to c_diff c_improved].
  split; f_equal.
  - destruct (Z.ltb_spec b a).
    + rewrite decide_True by (split; [lia|by apply Z.ltb_lt; lia]).
      by rewrite Z.abs_neq, Z.opp_sub_distr, Z.add_comm by lia.
    + rewrite decide_False; [done|]. intros [_ Hlt]. apply Z.ltb_lt in Hlt. lia.
  - destruct (Z.ltb_spec a b).
    + rewrite decide_True by (split; [lia|by apply Z.ltb_ge; lia]).
      by rewrite Z.abs_eq by lia.
    + rewrite decide_False; [done|]. intros [Hne Hge]. apply Z.ltb_ge in Hge. lia.
Qed.

(** One [MAJOR] issue replaced by one [BLOCKER] issue: no line; two
    issues of which one has no recognized severity, then none: one fixed. *)
Lemma summary_issues_line_witness :
  exists s,
    summary (compareQualityData
               {| projectInfo := None; qualityGate := None; measures := Missing;
                  issues := Items [{| severity := Some "MAJOR" |};
                                   {| severity := Some "TRIVIAL" |}];
                  timestamp := None |}
               {| projectInfo := None; qualityGate := None; measures := Missing;
                  issues := Items []; timestamp := None |}) = Some s /\
    improvements s = ["Total issues: 1 -> 0 (1 fixed)"] /\
    degradations s = [].
Proof.
  exact (summary_issues_line
           {| projectInfo := None; qualityGate := None; measures := Missing;
              issues := Items [{| severity := Some "MAJOR" |};
                               {| severity := Some "TRIVIAL" |}];
              timestamp := None |}
           {| projectInfo := None; qualityGate := None; measures := Missing;
              issues := Items []; timestamp := None |}
           [{| severity := Some "MAJOR" |}; {| severity := Some "TRIVIAL" |}] []
           eq_refl eq_refl).
Defined.

(** * Properties of the reports *)

(** ** Counting issues by a field *)

Lemma countBy_snoc field (l : list FullIssue) (issue : FullIssue) :
  countBy field (l ++ [issue]) = countInto field (countBy field l) issue.
Proof. unfold countBy. by rewrite foldl_app. Qed.

Lemma countKey_snoc field (l : list FullIssue) (issue : FullIssue) (k : string) :
  countKey field (l ++ [issue]) k
  = countKey field l k + (if decide (keyOf field issue = k) then 1 else 0).
Proof.
  unfold countKey. rewrite filter_app, length_app, Nat2Z.inj_add. f_equal.
  rewrite filter_cons, filter_nil. by case_decide.
Qed.

Lemma countKey_nonneg field (l : list FullIssue) (k : string) : 0 <= countKey field l k.
Proof. unfold countKey. lia. Qed.

(** The dictionary of counts holds, for every key under which an issue is
    filed, the number of issues filed under it, and nothing else. *)
Lemma countBy_lookup field (l : list FullIssue) (k : string) :
  countBy field l !! k =
    if decide (countKey field l k = 0) then None else Some (countKey field l k).
Proof.
  induction l as [|issue l IH] using rev_ind; [done|].
  rewrite countBy_snoc, countKey_snoc. unfold countInto. fold (keyOf field issue).
  pose proof (countKey_nonneg field l k) as Hn.
  rewrite lookup_insert. destruct (decide (keyOf field issue = k)) as [->|Hk].
  - rewrite decide_False by lia. f_equal. rewrite IH.
    case_decide as Hz; [rewrite Hz; done|]. by rewrite or_zero_Some.
  - rewrite IH, Z.add_0_r. done.
Qed.

Lemma sumCounts_insert_any (counts : gmap string Z) (k : string) (n : Z) :
  sumCounts (<[k := n]> counts) = n + sumCounts counts - default 0 (counts !! k).
Proof.
  rewrite <- insert_delete_eq, sumCounts_insert by apply lookup_delete_eq.
  destruct (counts !! k) as [x|] eqn:Hk; simpl.
  - rewrite <- (insert_id counts k x Hk) at 2.
    rewrite <- insert_delete_eq, sumCounts_insert by apply lookup_delete_eq. lia.
  - rewrite delete_id by done. lia.
Qed.

(** Every issue is counted once. *)
Lemma sumCounts_countBy field (l : list FullIssue) :
  sumCounts (countBy field l) = Z.of_nat (length l).
Proof.
  induction l as [|issue l IH] using rev_ind; [apply sumCounts_empty|].
  rewrite countBy_snoc. unfold countInto. rewrite sumCounts_insert_any, IH.
  rewrite length_app, Nat2Z.inj_add. simpl.
  destruct (countBy field l !! _) as [x|] eqn:Hx; simpl.
  - rewrite countBy_lookup in Hx. case_decide; [done|]. injection Hx as <-.
    rewrite (proj2 (Z.eqb_neq _ _)) by done. lia.
  - lia.
Qed.

(** ** [generateSummaryReport] *)

(** [generateSummaryReport] throws (a [TypeError]) exactly when the
    project, the gate or the measures are missing from the data; missing
    issues are no error. *)
Theorem generateSummaryReport_throws (data : QualityReport) :
  (forall e, generateSummaryReport data = Throw e ->
             e = TypeError /\
             (reportProject data = None \/ reportGate data = None \/
              reportMeasures data = None)) /\
  (reportProject data = None \/ reportGate data = None \/ reportMeasures data = None ->
   generateSummaryReport data = Throw TypeError).
Proof.
  unfold generateSummaryReport.
  destruct (reportMeasures data), (reportProject data), (reportGate data);
    split; try (intros e [= <-]); try discriminate; try tauto;
    intros [|[|]]; done.
Qed.

Lemma generateSummaryReport_throws_witness :
  generateSummaryReport
    {| reportProject := None;
       reportGate := Some {| gateStatus := Some "OK"; conditions := None |};
       reportMeasures := Some []; reportIssues := None;
       coverageDetails := None; reportTimestamp := None |}
  = Throw TypeError.
Proof. apply generateSummaryReport_throws. by left. Defined.

(** The issue block of a summary report. *)
Lemma summaryReport_issues (data : QualityReport) (r : SummaryReport) :
  generateSummaryReport data = Ok r ->
  sr_issues r =
    {| total := Z.of_nat (length (or_empty (reportIssues data)));
       bySeverity := countBy issueSeverity (or_empty (reportIssues data)) |}.
Proof.
  unfold generateSummaryReport.
  destruct (reportMeasures data) as [ms|]; [|done].
  destruct (reportProject data) as [p|], (reportGate data) as [g|]; try done.
  intros [= <-]. cbn [sr_issues]. by destruct (reportIssues data).
Qed.

(** In a summary report [total] is the number of issues.  Every issue is
    counted once, under its severity or under ["UNKNOWN"] when it has
    none: for each key that is not the name of a member of
    [Object.prototype], [bySeverity] holds the number of issues filed
    under it, and has no entry when there is none; when no issue is filed
    under such a name, its values add up to [total]. *)
Theorem generateSummaryReport_issue_counts (data : QualityReport) (r : SummaryReport) :
  generateSummaryReport data = Ok r ->
  total (sr_issues r) = Z.of_nat (length (or_empty (reportIssues data))) /\
  (forall k, k ∉ prototypeNames ->
     bySeverity (sr_issues r) !! k =
       let n := countKey issueSeverity (or_empty (reportIssues data)) k in
       if decide (n = 0) then None else Some n) /\
  ((forall issue, issue ∈ or_empty (reportIssues data) ->
                  keyOf issueSeverity issue ∉ prototypeNames) ->
   sumCounts (bySeverity (sr_issues r)) = total (sr_issues r)).
Proof.
  intros Hr. rewrite (summaryReport_issues data r Hr). cbn [total bySeverity].
  split; [done|]. split.
  - intros k _. apply countBy_lookup.
  - intros _. apply sumCounts_countBy.
Qed.

Lemma generateSummaryReport_issue_counts_witness :
  exists r,
    generateSummaryReport
      (reportOf [] (Some [issueOf (Some "MAJOR") None; issueOf None None])) = Ok r /\
    total (sr_issues r) = 2 /\
    bySeverity (sr_issues r) !! "MAJOR" = Some 1 /\
    bySeverity (sr_issues r) !! "UNKNOWN" = Some 1 /\
    bySeverity (sr_issues r) !! "MINOR" = None /\
    sumCounts (bySeverity (sr_issues r)) = 2.
Proof.
  destruct (generateSummaryReport
              (reportOf [] (Some [issueOf (Some "MAJOR") None; issueOf None None])))
    as [r|e] eqn:Hr; [|discriminate Hr].
  destruct (generateSummaryReport_issue_counts _ r Hr) as (Ht & Hk & Hsum).
  exists r. split; [reflexivity|].
  split; [exact Ht|].
  split; [apply (Hk "MAJOR"); not_prototype|].
  split; [apply (Hk "UNKNOWN"); not_prototype|].
  split; [apply (Hk "MINOR"); not_prototype|].
  etrans; [apply Hsum|exact Ht].
  intros issue Hin. elem_of_cases Hin ltac:(subst issue; not_prototype).
Defined.

(** Each metric of the summary is the value of the last measure of that
    name, and ["N/A"] when there is no such measure or when that value is
    missing or empty. *)
Theorem generateSummaryReport_metrics (data : QualityReport) (r : SummaryReport)
    (measures : list Measure) :
  generateSummaryReport data = Ok r ->
  reportMeasures data = Some measures ->
  let shown k :=
    or_string (last (filter (fun m => metric m = k) measures) ≫= value) "N/A" in
  codeSize (sr_metrics r) = shown "ncloc" /\
  coverage (sr_metrics r) = shown "coverage" /\
  duplications (sr_metrics r) = shown "duplicated_lines_density" /\
  bugs (sr_metrics r) = shown "bugs" /\
  vulnerabilities (sr_metrics r) = shown "vulnerabilities" /\
  codeSmells (sr_metrics r) = shown "code_smells" /\
  securityHotspots (sr_metrics r) = shown "security_hotspots".
Proof.
  intros Hr Hm shown. unfold generateSummaryReport in Hr. rewrite Hm in Hr.
  destruct (reportProject data) as [p|], (reportGate data) as [g|]; try done.
  injection Hr as <-. cbn [sr_metrics codeSize coverage duplications bugs
    vulnerabilities codeSmells securityHotspots].
  assert (forall k, or_string (Object.get (measuresToObject measures) k) "N/A" = shown k)
    as Hk.
  { intros k. unfold shown, Object.get.
    rewrite (foldInsert_lookup_last metric value ∅ measures k : measuresToObject _ !! _ = _).
    by destruct (last _). }
  by rewrite !Hk.
Qed.

Lemma generateSummaryReport_metrics_witness :
  exists r,
    generateSummaryReport
      (reportOf [{| metric := "bugs"; value := Some "5" |};
                 {| metric := "coverage"; value := Some EmptyString |};
                 {| metric := "bugs"; value := Some "2" |}] None) = Ok r /\
    bugs (sr_metrics r) = "2" /\ coverage (sr_metrics r) = "N/A" /\
    codeSize (sr_metrics r) = "N/A".
Proof.
  eexists. split; [reflexivity|].
  match goal with
  | |- bugs (sr_metrics ?r) = _ /\ _ =>
      destruct (generateSummaryReport_metrics
                  (reportOf [{| metric := "bugs"; value := Some "5" |};
                             {| metric := "coverage"; value := Some EmptyString |};
                             {| metric := "bugs"; value := Some "2" |}] None)
                  r _ eq_refl eq_refl)
        as (Hsize & Hcov & _ & Hbugs & _)
  end.
  split; [exact Hbugs|]. split; [exact Hcov|exact Hsize].
Defined.

(** ** The report and the comparison on the same issues *)

Lemma keyOf_recognized (issue : FullIssue) (sev : string) :
  sev ∈ severities ->
  keyOf issueSeverity issue = sev <-> severity (toIssue issue) = Some sev.
Proof.
  intros Hsev. unfold keyOf, toIssue. cbn [severity].
  destruct (issueSeverity issue) as [[|c s]|]; simpl.
  - split; intros H; [subst sev|injection H as <-];
      elem_of_cases Hsev ltac:(discriminate Hsev).
  - split; [by intros <-|by intros [= <-]].
  - split; [intros <-|done]. elem_of_cases Hsev ltac:(discriminate Hsev).
Qed.

Lemma countSeverity_toIssue (l : list FullIssue) (sev : string) :
  sev ∈ severities ->
  countSeverity (toIssue <$> l) sev = countKey issueSeverity l sev.
Proof.
  intros Hsev. unfold countSeverity, countKey. f_equal.
  induction l as [|issue l IH]; [done|].
  rewrite fmap_cons, !filter_cons.
  pose proof (keyOf_recognized issue sev Hsev) as Hk.
  destruct (decide (severity (toIssue issue) = Some sev)),
    (decide (keyOf issueSeverity issue = sev)); simpl; try tauto; by rewrite IH.
Qed.

Lemma length_filter_split {A} (P : A -> Prop) `{!forall x, Decision (P x)} (l : list A) :
  length l = (length (filter P l) + length (filter (fun x => ~ P x) l))%nat.
Proof.
  induction l as [|x l IH]; [done|]. rewrite !filter_cons.
  destruct (decide (P x)), (decide (~ P x)); simpl; try tauto; lia.
Qed.

(** The summary report and the comparison count the same issues
    differently: for each of the five severities the two counts agree, but
    the total of the report counts every issue, while the total of the
    comparison leaves out those without a recognized severity. *)
Theorem report_and_comparison_counts (data : QualityReport) (r : SummaryReport)
    (l : list FullIssue) :
  generateSummaryReport data = Ok r ->
  reportIssues data = Some l ->
  exists ic,
    compareIssues (Items (toIssue <$> l)) (Items []) = Available ic /\
    (forall sev c, i_changes ic !! sev = Some c ->
                   c_from c = default 0 (bySeverity (sr_issues r) !! sev)) /\
    total (sr_issues r)
    = c_from (i_total ic)
      + Z.of_nat (length (filter (fun issue => ~ recognized (toIssue issue)) l)).
Proof.
  intros Hr Hl.
  rewrite (summaryReport_issues data r Hr), Hl. cbn [or_empty total bySeverity].
  assert (forall k, countBy issueSeverity l !! k =
                    if decide (countKey issueSeverity l k = 0) then None
                    else Some (countKey issueSeverity l k)) as Hk
    by (intros k; apply countBy_lookup).
  destruct (compareIssues_lookup (toIssue <$> l) []) as (ic & Heq & Hc & Htot).
  exists ic. split; [exact Heq|]. split.
  - intros sev c. rewrite Hc. case_decide as Hsev; [|done]. intros [= <-].
    cbn [c_from countChange]. rewrite Hk, countSeverity_toIssue by done.
    cbv zeta. by case_decide as Hz; [rewrite Hz|].
  - rewrite Htot. cbn [c_from countChange].
    rewrite sumCounts_severityCounts, sum_of_counts_recognized.
    rewrite (length_filter_split (fun issue => recognized (toIssue issue)) l).
    rewrite Nat2Z.inj_add. f_equal. f_equal.
    clear. induction l as [|issue l IH]; [done|].
    rewrite fmap_cons, !filter_cons.
    destruct (decide (recognized (toIssue issue))); simpl; by rewrite IH.
Qed.

Lemma report_and_comparison_counts_witness :
  exists r ic,
    generateSummaryReport
      (reportOf [] (Some [issueOf (Some "MAJOR") None; issueOf (Some "major") None;
                          issueOf None None])) = Ok r /\
    compareIssues
      (Items (toIssue <$> [issueOf (Some "MAJOR") None; issueOf (Some "major") None;
                           issueOf None None]))
      (Items []) = Available ic /\
    total (sr_issues r) = c_from (i_total ic) + 2.
Proof.
  eexists.
  match goal with
  | |- exists ic, ?g = Ok ?r /\ _ =>
      destruct (report_and_comparison_counts
                  (reportOf [] (Some [issueOf (Some "MAJOR") None;
                                      issueOf (Some "major") None; issueOf None None]))
                  r _ eq_refl eq_refl) as (ic & Heq & _ & Ht)
  end.
  exists ic. split; [reflexivity|]. split; [exact Heq|exact Ht].
Defined.

(** ** Removing the project prefix *)

Lemma prefix_app (p s : string) : String.prefix p (p ++ s) = true.
Proof.
  induction p as [|c p IH]; simpl; [by destruct s|].
  by destruct (ascii_dec c c).
Qed.

Lemma dropString_app (p s : string) : dropString (String.length p) (p ++ s) = s.
Proof. induction p as [|c p IH]; simpl; [by destruct s|done]. Qed.

Lemma removeFirst_unfold (p s : string) :
  removeFirst p s =
    if String.prefix p s then dropString (String.length p) s
    else match s with
         | String c s' => String c (removeFirst p s')
         | EmptyString => EmptyString
         end.
Proof. by destruct s. Qed.

(** [s.replace(pattern, '')] removes the occurrence of [pattern] that
    starts first: if [s] is [a ++ pattern ++ b] and no occurrence starts
    inside [a], the result is [a ++ b]. *)
Lemma removeFirst_first (p a b : string) :
  (forall a1 a2, a = a1 ++ a2 -> a2 <> EmptyString ->
                 String.prefix p (a2 ++ p ++ b) = false) ->
  removeFirst p (a ++ p ++ b) = a ++ b.
Proof.
  induction a as [|c a IH]; intros Hno.
  - change (EmptyString ++ p ++ b) with (p ++ b).
    by rewrite removeFirst_unfold, prefix_app, dropString_app.
  - rewrite removeFirst_unfold.
    rewrite (Hno EmptyString (String c a) eq_refl ltac:(done)).
    change (String c a ++ p ++ b) with (String c (a ++ p ++ b)).
    change (String c a ++ b) with (String c (a ++ b)).
    f_equal. apply IH. intros a1 a2 -> Ha2.
    apply (Hno (String c a1) a2 eq_refl Ha2).
Qed.

(** A string in which [pattern] does not occur is left as it is. *)
Lemma removeFirst_absent (p s : string) :
  (forall s1 s2, s = s1 ++ s2 -> String.prefix p s2 = false) ->
  removeFirst p s = s.
Proof.
  induction s as [|c s IH]; intros Hno.
  - rewrite removeFirst_unfold. by rewrite (Hno EmptyString EmptyString eq_refl).
  - rewrite removeFirst_unfold, (Hno EmptyString (String c s) eq_refl).
    f_equal. apply IH. intros s1 s2 ->. apply (Hno (String c s1) s2 eq_refl).
Qed.

(** The component shown in the reports: reading it throws a [TypeError]
    when the issue has no component; otherwise the first occurrence of
    ["henry1266_pharmacy-pos:"] is removed, wherever it starts, and a
    component in which that text does not occur (an issue of any other
    project) is shown as it is. *)
Theorem shortComponent_spec (issue : FullIssue) :
  (component issue = None -> shortComponent issue = Throw TypeError) /\
  (forall a b,
     component issue = Some (a ++ projectPrefix ++ b) ->
     (forall a1 a2, a = a1 ++ a2 -> a2 <> EmptyString ->
                    String.prefix projectPrefix (a2 ++ projectPrefix ++ b) = false) ->
     shortComponent issue = Ok (a ++ b)) /\
  (forall c,
     component issue = Some c ->
     (forall c1 c2, c = c1 ++ c2 -> String.prefix projectPrefix c2 = false) ->
     shortComponent issue = Ok c).
Proof.
  unfold shortComponent. split; [by intros ->|]. split.
  - intros a b -> Hno. by rewrite removeFirst_first.
  - intros c -> Hno. by rewrite removeFirst_absent.
Qed.

Lemma shortComponent_spec_witness :
  shortComponent (issueOf None (Some "henry1266_pharmacy-pos:src/app.js")) = Ok "src/app.js".
Proof.
  apply (proj1 (proj2 (shortComponent_spec
                         (issueOf None (Some "henry1266_pharmacy-pos:src/app.js"))))
           EmptyString "src/app.js" eq_refl).
  intros a1 a2 Ha Hne. destruct a1, a2; try discriminate Ha. by destruct Hne.
Defined.

Example shortComponent_inner_occurrence :
  shortComponent (issueOf None (Some "lib/henry1266_pharmacy-pos:src/app.js"))
  = Ok "lib/src/app.js".
Proof. reflexivity. Qed.

Example shortComponent_other_project :
  shortComponent (issueOf None (Some "other_project:src/app.js"))
  = Ok "other_project:src/app.js".
Proof. reflexivity. Qed.

(** ** Mapping and folding with exceptions *)

Lemma mapM_Ok {A B} (f : A -> Result B) (l : list A) (ys : list B) :
  mapM f l = Ok ys <-> Forall2 (fun x y => f x = Ok y) l ys.
Proof.
  revert ys. induction l as [|x l IH]; intros ys; simpl.
  - split; [intros [= <-]; constructor|by inversion 1].
  - destruct (f x) as [y|e] eqn:Hx; simpl.
    + destruct (mapM f l) as [ys'|e] eqn:Hl; simpl.
      * split.
        -- intros [= <-]. constructor; [done|]. by apply IH.
        -- inversion 1 as [|? y' ? ys'' Hy Hys]; subst.
           apply IH in Hys. congruence.
      * split; [done|]. inversion 1 as [|? y' ? ys'' Hy Hys]; subst.
        apply IH in Hys. done.
    + split; [done|]. inversion 1; congruence.
Qed.

Lemma mapM_Throw {A B} (f : A -> Result B) (l : list A) (e : Exception) :
  mapM f l = Throw e -> exists x, x ∈ l /\ f x = Throw e.
Proof.
  induction l as [|x l IH]; simpl; [done|].
  destruct (f x) as [y|e'] eqn:Hx; simpl.
  - destruct (mapM f l) as [ys|e'] eqn:Hl; simpl; [done|].
    intros [= <-]. destruct (IH eq_refl) as (x' & Hin & Hx').
    exists x'. split; [by right|done].
  - intros [= <-]. exists x. split; [left|done].
Qed.

Lemma mapM_all_Ok {A B} (f : A -> Result B) (l : list A) :
  (forall x, x ∈ l -> exists y, f x = Ok y) -> exists ys, mapM f l = Ok ys.
Proof.
  induction l as [|x l IH]; intros Hall; simpl; [by eexists|].
  destruct (Hall x) as [y ->]; [left|]. simpl.
  destruct IH as [ys ->]; [intros x' Hx'; apply Hall; by right|].
  by eexists.
Qed.

Lemma shortComponent_Ok (issue : FullIssue) :
  (exists c, shortComponent issue = Ok c) <-> component issue <> None.
Proof.
  unfold shortComponent. destruct (component issue); split; try done.
  - intros _. by eexists.
  - by intros [c Hc].
Qed.

Lemma shortComponent_Throw (issue : FullIssue) (e : Exception) :
  shortComponent issue = Throw e -> e = TypeError /\ component issue = None.
Proof. unfold shortComponent. destruct (component issue); [done|]. by intros [= <-]. Qed.

(** ** [generateDetailedReport] *)

Lemma generateDetailedReport_inv (data : QualityReport) (r : DetailedReport) :
  generateDetailedReport data = Ok r ->
  exists summary g ms latest,
    generateSummaryReport data = Ok summary /\
    reportGate data = Some g /\
    reportMeasures data = Some ms /\
    mapM latestIssue (take 10 (or_empty (reportIssues data))) = Ok latest /\
    r = {| dr_project := sr_project summary;
           dr_qualityGate := sr_qualityGate summary;
           dr_conditions := or_empty (conditions g);
           dr_metrics := sr_metrics summary;
           dr_allMetrics := measuresToObject ms;
           dr_issues := sr_issues summary;
           dr_byType := countBy issueType (or_empty (reportIssues data));
           dr_latest := latest;
           dr_overallCoverage :=
             or_string (find (fun m => String.eqb (metric m) "coverage") ms ≫= value) "N/A";
           dr_coverageDetails := or_empty (coverageDetails data) |}.
Proof.
  unfold generateDetailedReport.
  destruct (generateSummaryReport data) as [summary|e] eqn:Hs; [|done].
  cbn [bind].
  destruct (reportGate data) as [g|]; [|done].
  destruct (reportMeasures data) as [ms|]; [|done].
  destruct (reportIssues data) as [l|]; cbn [or_empty].
  - destruct (mapM latestIssue (take 10 l)) as [latest|e] eqn:Hl; [|done].
    intros [= <-]. by exists summary, g, ms, latest.
  - intros [= <-]. by exists summary, g, ms, [].
Qed.

Lemma latestIssue_Ok (issue : FullIssue) :
  (exists y, latestIssue issue = Ok y) <-> component issue <> None.
Proof.
  rewrite <- shortComponent_Ok. unfold latestIssue.
  destruct (shortComponent issue) as [c|e]; simpl; split; intros [y Hy]; by eauto.
Qed.

(** [generateDetailedReport] throws only [TypeError]s.  It returns a
    report exactly when the project, the gate and the measures are there
    and each of the first ten issues has a component; issues after the
    tenth may lack one. *)
Theorem generateDetailedReport_throws (data : QualityReport) :
  (forall e, generateDetailedReport data = Throw e -> e = TypeError) /\
  ((exists r, generateDetailedReport data = Ok r) <->
   reportProject data <> None /\ reportGate data <> None /\
   reportMeasures data <> None /\
   forall issue, issue ∈ take 10 (or_empty (reportIssues data)) ->
                 component issue <> None).
Proof.
  split.
  - unfold generateDetailedReport, generateSummaryReport. intros e.
    destruct (reportMeasures data) as [ms|]; [|by intros [= <-]].
    destruct (reportProject data) as [p|], (reportGate data) as [g|];
      try (by intros [= <-]).
    cbn [bind]. destruct (reportIssues data) as [l|]; [|done].
    destruct (mapM latestIssue (take 10 l)) as [latest|e'] eqn:Hl; [done|].
    intros [= <-]. apply mapM_Throw in Hl as (issue & _ & Hi).
    unfold latestIssue in Hi. destruct (shortComponent issue) as [c|e''] eqn:Hc; [done|].
    injection Hi as <-. by apply shortComponent_Throw in Hc as [-> _].
  - split.
    + intros [r Hr]. apply generateDetailedReport_inv in Hr
        as (summary & g & ms & latest & Hs & Hg & Hm & Hl & _).
      unfold generateSummaryReport in Hs. rewrite Hm, Hg in Hs.
      destruct (reportProject data) as [p|]; [|done].
      rewrite Hg, Hm. repeat (split; [done|]).
      intros issue Hin. apply mapM_Ok in Hl.
      apply latestIssue_Ok.
      apply list_elem_of_lookup in Hin as [i Hi].
      destruct (Forall2_lookup_l _ _ _ i issue Hl Hi) as (y & _ & Hy). by eauto.
    + intros (Hp & Hg & Hm & Hall).
      unfold generateDetailedReport, generateSummaryReport.
      destruct (reportMeasures data) as [ms|]; [|done].
      destruct (reportProject data) as [p|]; [|done].
      destruct (reportGate data) as [g|]; [|done].
      cbn [bind].
      destruct (mapM_all_Ok latestIssue (take 10 (or_empty (reportIssues data))))
        as [latest Hl].
      { intros issue Hin. apply latestIssue_Ok. by apply Hall. }
      destruct (reportIssues data) as [l|]; cbn [or_empty] in Hl.
      * rewrite Hl. cbn [bind]. by eexists.
      * by eexists.
Qed.

(** Eleven issues of which only the last has no component: the detailed
    report is produced. *)
Lemma generateDetailedReport_throws_witness :
  exists r,
    generateDetailedReport
      (reportOf [] (Some (replicate 10 (issueOf None (Some "a.js"))
                          ++ [issueOf None None])%list)) = Ok r.
Proof.
  apply (proj2 (generateDetailedReport_throws _)).
  repeat (split; [discriminate|]).
  intros issue Hin. cbn in Hin.
  elem_of_cases Hin ltac:(by rewrite Hin).
Defined.

Lemma find_head_filter (ms : list Measure) (k : string) :
  find (fun m => String.eqb (metric m) k) ms = head (filter (fun m => metric m = k) ms).
Proof.
  induction ms as [|m ms IH]; [done|]. simpl. rewrite filter_cons.
  destruct (String.eqb_spec (metric m) k) as [Hk|Hk].
  - by rewrite decide_True.
  - by rewrite decide_False.
Qed.

(** The two coverage figures of a detailed report come from different
    measures when [coverage] occurs more than once: [coverage.overall] is
    the value of its first occurrence, [metrics.coverage] that of its
    last (each ["N/A"] when that value is missing or empty, or when
    [coverage] does not occur).  They agree when it occurs at most once. *)
Theorem generateDetailedReport_coverage (data : QualityReport) (r : DetailedReport)
    (ms : list Measure) :
  generateDetailedReport data = Ok r ->
  reportMeasures data = Some ms ->
  let occurrences := filter (fun m => metric m = "coverage") ms in
  dr_overallCoverage r = or_string (head occurrences ≫= value) "N/A" /\
  coverage (dr_metrics r) = or_string (last occurrences ≫= value) "N/A" /\
  ((length occurrences <= 1)%nat -> dr_overallCoverage r = coverage (dr_metrics r)).
Proof.
  intros Hr Hm occurrences.
  apply generateDetailedReport_inv in Hr
    as (summary & g & ms' & latest & Hs & Hg & Hm' & Hl & ->).
  rewrite Hm in Hm'. injection Hm' as <-.
  cbn [dr_overallCoverage dr_metrics].
  assert (coverage (sr_metrics summary) = or_string (last occurrences ≫= value) "N/A")
    as Hlast.
  { unfold generateSummaryReport in Hs. rewrite Hm, Hg in Hs.
    destruct (reportProject data); [|done]. injection Hs as <-.
    cbn [sr_metrics coverage]. unfold Object.get.
    rewrite (foldInsert_lookup_last metric value ∅ ms "coverage"
             : measuresToObject _ !! _ = _).
    fold occurrences. by destruct (last occurrences). }
  rewrite find_head_filter. fold occurrences.
  split; [done|]. split; [done|]. intros Hlen. rewrite Hlast.
  destruct occurrences as [|m [|m' l]]; simpl in *; [done..|lia].
Qed.

(** [coverage] listed twice: the two figures differ. *)
Lemma generateDetailedReport_coverage_witness :
  exists r,
    generateDetailedReport
      (reportOf [{| metric := "coverage"; value := Some "70" |};
                 {| metric := "coverage"; value := Some "85" |}] None) = Ok r /\
    dr_overallCoverage r = "70" /\ coverage (dr_metrics r) = "85".
Proof.
  eexists. split; [reflexivity|].
  match goal with
  | |- dr_overallCoverage ?r = _ /\ _ =>
      destruct (generateDetailedReport_coverage
                  (reportOf [{| metric := "coverage"; value := Some "70" |};
                             {| metric := "coverage"; value := Some "85" |}] None)
                  r _ eq_refl eq_refl) as (Hfirst & Hlast & _)
  end.
  split; [exact Hfirst|exact Hlast].
Defined.

(** The [latest] list of a detailed report holds the first ten issues (all
    of them when there are fewer), in their order, each with its key,
    message, severity and type and its shortened component; [total] is
    the number of all issues, and the counts by type add up to it when no
    issue is filed under the name of a member of [Object.prototype]. *)
Theorem generateDetailedReport_latest (data : QualityReport) (r : DetailedReport) :
  generateDetailedReport data = Ok r ->
  let issues := or_empty (reportIssues data) in
  length (dr_latest r) = Nat.min 10 (length issues) /\
  Forall2 (fun issue shown =>
             li_key shown = issueKey issue /\
             li_message shown = issueMessage issue /\
             li_severity shown = issueSeverity issue /\
             li_type shown = issueType issue /\
             shortComponent issue = Ok (li_component shown))
          (take 10 issues) (dr_latest r) /\
  total (dr_issues r) = Z.of_nat (length issues) /\
  ((forall issue, issue ∈ issues -> keyOf issueType issue ∉ prototypeNames) ->
   sumCounts (dr_byType r) = total (dr_issues r)).
Proof.
  intros Hr issues.
  apply generateDetailedReport_inv in Hr
    as (summary & g & ms & latest & Hs & Hg & Hm & Hl & ->).
  cbn [dr_latest dr_issues dr_byType]. fold issues in Hl |- *.
  apply mapM_Ok in Hl.
  split; [|split; [|split]].
  - rewrite <- (Forall2_length _ _ _ Hl), length_take. lia.
  - eapply Forall2_impl; [exact Hl|]. intros issue shown Hi. simpl in Hi.
    unfold latestIssue in Hi.
    destruct (shortComponent issue) as [c|e]; [|done]. by injection Hi as <-.
  - by rewrite (summaryReport_issues data summary Hs).
  - intros _. rewrite (summaryReport_issues data summary Hs). cbn [total].
    apply sumCounts_countBy.
Qed.

Lemma generateDetailedReport_latest_witness :
  exists r,
    generateDetailedReport
      (reportOf [] (Some (replicate 12 (issueOf (Some "MAJOR") (Some "a.js"))))) = Ok r /\
    length (dr_latest r) = 10%nat /\ total (dr_issues r) = 12.
Proof.
  eexists. split; [reflexivity|].
  match goal with
  | |- length (dr_latest ?r) = _ /\ _ =>
      destruct (generateDetailedReport_latest
                  (reportOf [] (Some (replicate 12 (issueOf (Some "MAJOR") (Some "a.js")))))
                  r eq_refl) as (Hlen & _ & Htot & _)
  end.
  split; [exact Hlen|exact Htot].
Defined.

(** ** [generateIssuesReport] *)

Lemma foldM_snoc {A B} (f : B -> A -> Result B) (acc : B) (l : list A) (x : A) :
  foldM f acc (l ++ [x]) = bind (foldM f acc l) (fun acc' => f acc' x).
Proof.
  revert acc. induction l as [|y l IH]; intros acc; simpl.
  - by destruct (f acc x).
  - destruct (f acc y) as [acc'|e]; simpl; [apply IH|done].
Qed.

Lemma issueItem_Ok (issue : FullIssue) :
  (exists y, issueItem issue = Ok y) <-> component issue <> None.
Proof.
  rewrite <- shortComponent_Ok. unfold issueItem.
  destruct (shortComponent issue) as [c|e]; simpl; split; intros [y Hy]; by eauto.
Qed.

Lemma issueItem_Throw (issue : FullIssue) (e : Exception) :
  issueItem issue = Throw e -> e = TypeError /\ component issue = None.
Proof.
  unfold issueItem. destruct (shortComponent issue) as [c|e'] eqn:Hc; [done|].
  intros [= <-]. by apply shortComponent_Throw.
Qed.

Lemma groupInto_Ok (groups : gmap string (list IssueItem)) (issue : FullIssue) groups' :
  groupInto groups issue = Ok groups' ->
  (keyOf issueSeverity issue ∉ prototypeNames) /\
  exists item,
    issueItem issue = Ok item /\
    groups' = <[keyOf issueSeverity issue :=
                 (or_empty (groups !! keyOf issueSeverity issue) ++ [item])%list]> groups.
Proof.
  unfold groupInto. fold (keyOf issueSeverity issue).
  set (k := keyOf issueSeverity issue).
  case_bool_decide as Hp; [done|].
  destruct (issueItem issue) as [item|e]; [|done]. cbn [bind].
  intros [= <-]. split; [done|]. exists item. split; [done|].
  destruct (groups !! k) as [v|] eqn:Hk.
  - by rewrite Hk.
  - rewrite lookup_insert_eq. cbn [or_empty]. by rewrite insert_insert_eq.
Qed.

(** The groups built by the grouping [reduce]: under each key, the items
    of the issues filed under it, in their order; no entry for a key
    without issues. *)
Lemma foldM_groupInto (l : list FullIssue) (groups : gmap string (list IssueItem)) :
  foldM groupInto ∅ l = Ok groups ->
  forall k,
    Forall2 (fun issue item => issueItem issue = Ok item)
            (filter (fun issue => keyOf issueSeverity issue = k) l)
            (or_empty (groups !! k)) /\
    (groups !! k = None <-> filter (fun issue => keyOf issueSeverity issue = k) l = []).
Proof.
  revert groups. induction l as [|issue l IH] using rev_ind; intros groups.
  - intros [= <-] k. rewrite lookup_empty. split; [constructor|done].
  - rewrite foldM_snoc.
    destruct (foldM groupInto ∅ l) as [groups0|e]; [|done]. cbn [bind].
    intros Hg k. apply groupInto_Ok in Hg as (_ & item & Hitem & ->).
    destruct (IH groups0 eq_refl k) as [Hitems Hnone].
    rewrite filter_app, filter_cons, filter_nil, lookup_insert.
    destruct (decide (keyOf issueSeverity issue = k)) as [->|Hk].
    + cbn [or_empty]. split.
      * apply Forall2_app; [done|]. by constructor.
      * split; [done|]. intros Happ. by apply app_eq_nil in Happ as [_ ?].
    + by rewrite app_nil_r.
Qed.

Lemma foldM_groupInto_Throw (l : list FullIssue) (e : Exception) :
  foldM groupInto ∅ l = Throw e ->
  e = TypeError /\
  exists issue, issue ∈ l /\
    (component issue = None \/ keyOf issueSeverity issue ∈ prototypeNames).
Proof.
  induction l as [|issue l IH] using rev_ind; [done|].
  rewrite foldM_snoc.
  destruct (foldM groupInto ∅ l) as [groups0|e'] eqn:Hl; cbn [bind].
  - unfold groupInto. fold (keyOf issueSeverity issue). intros Hg.
    assert (issue ∈ (l ++ [issue])%list) as Hin by (apply elem_of_app; right; left).
    case_bool_decide as Hp.
    + injection Hg as <-. split; [done|]. exists issue. by split; [|right].
    + destruct (issueItem issue) as [item|e'] eqn:Hi; [done|].
      injection Hg as <-. apply issueItem_Throw in Hi as [-> Hc].
      split; [done|]. exists issue. by split; [|left].
  - intros [= <-]. destruct (IH eq_refl) as (-> & i & Hin & Hc).
    split; [done|]. exists i. split; [|done]. apply elem_of_app. by left.
Qed.

Lemma foldM_groupInto_all (l : list FullIssue) :
  (forall issue, issue ∈ l ->
     component issue <> None /\ keyOf issueSeverity issue ∉ prototypeNames) ->
  exists groups, foldM groupInto ∅ l = Ok groups.
Proof.
  intros Hall. destruct (foldM groupInto ∅ l) as [groups|e] eqn:Hl; [by eexists|].
  apply foldM_groupInto_Throw in Hl as (_ & issue & Hin & Hc).
  destruct (Hall issue Hin) as [Hc' Hp]. by destruct Hc.
Qed.

Lemma foldM_groupInto_keys (l : list FullIssue) (groups : gmap string (list IssueItem)) :
  foldM groupInto ∅ l = Ok groups ->
  forall issue, issue ∈ l ->
    component issue <> None /\ keyOf issueSeverity issue ∉ prototypeNames.
Proof.
  revert groups. induction l as [|issue l IH] using rev_ind; intros groups.
  - intros _ issue Hin. by apply elem_of_nil in Hin.
  - rewrite foldM_snoc.
    destruct (foldM groupInto ∅ l) as [groups0|e]; [|done]. cbn [bind].
    intros Hg i Hin. apply elem_of_app in Hin as [Hin|Hin]; [by apply (IH groups0)|].
    apply list_elem_of_singleton in Hin as ->.
    apply groupInto_Ok in Hg as (Hp & item & Hitem & _).
    split; [|done]. apply issueItem_Ok. by exists item.
Qed.

(** [generateIssuesReport] throws only [TypeError]s.  It returns a report
    exactly when the project is there, every issue has a component, and
    no issue is filed under the name of a member of [Object.prototype]
    (there [groups[severity].push] is not a function). *)
Theorem generateIssuesReport_throws (data : QualityReport) :
  (forall e, generateIssuesReport data = Throw e -> e = TypeError) /\
  ((exists r, generateIssuesReport data = Ok r) <->
   reportProject data <> None /\
   forall issue, issue ∈ or_empty (reportIssues data) ->
     component issue <> None /\ keyOf issueSeverity issue ∉ prototypeNames).
Proof.
  unfold generateIssuesReport.
  destruct (reportIssues data) as [l|]; cbn [or_empty].
  - destruct (foldM groupInto ∅ l) as [groups|e] eqn:Hl; cbn [bind].
    + destruct (reportProject data) as [p|].
      * split; [done|]. split; [|by eexists]. intros _. split; [done|].
        by apply (foldM_groupInto_keys l groups).
      * split; [by intros e [= <-]|]. split; [by intros [r Hr]|by intros [? _]].
    + apply foldM_groupInto_Throw in Hl as (-> & issue & Hin & Hc).
      split; [by intros e [= <-]|]. split; [by intros [r Hr]|].
      intros [_ Hall]. destruct (Hall issue Hin) as [Hc' Hp]. by destruct Hc.
  - destruct (reportProject data) as [p|].
    + split; [done|]. split; [|by eexists]. intros _. split; [done|].
      intros issue Hin. by apply elem_of_nil in Hin.
    + split; [by intros e [= <-]|]. split; [by intros [r Hr]|by intros [? _]].
Qed.

(** One issue with a component, filed under [constructor]: no issues
    report. *)
Lemma generateIssuesReport_throws_witness :
  generateIssuesReport
    (reportOf [] (Some [issueOf (Some "MAJOR") (Some "a.js");
                        issueOf (Some "constructor") (Some "b.js")])) = Throw TypeError.
Proof.
  destruct (generateIssuesReport
              (reportOf [] (Some [issueOf (Some "MAJOR") (Some "a.js");
                                  issueOf (Some "constructor") (Some "b.js")])))
    as [r|e] eqn:Hr.
  - exfalso.
    destruct (proj1 (proj2 (generateIssuesReport_throws _)) (ex_intro _ r Hr))
      as [_ Hall].
    destruct (Hall (issueOf (Some "constructor") (Some "b.js"))) as [_ Hp].
    + cbn. right. left.
    + apply Hp. left.
  - f_equal. exact (proj1 (generateIssuesReport_throws _) e Hr).
Defined.

Lemma sumCounts_fmap {V} (f : V -> Z) (m : gmap string V) :
  sumCounts (f <$> m)
  = foldl (fun sum count => sum + count) 0 ((fun e : string * V => f e.2) <$> map_to_list m).
Proof.
  unfold sumCounts, Object.values. apply foldl_add_perm.
  rewrite map_to_list_fmap, <- list_fmap_compose. done.
Qed.

(** The issues report groups every issue once: [total] is the number of
    issues; [bySeverity] is the dictionary of counts that the summary
    report computes for the same issues; the groups of [items] have
    distinct severities, each holds, in their order, the items of the
    issues filed under its severity, its [count] is their number and is
    never zero, every severity with an issue has a group, and the counts
    add up to [total]. *)
Theorem generateIssuesReport_groups (data : QualityReport) (r : IssuesReport)
    (l : list FullIssue) :
  generateIssuesReport data = Ok r ->
  reportIssues data = Some l ->
  ir_total r = Z.of_nat (length l) /\
  ir_bySeverity r = Some (countBy issueSeverity l) /\
  NoDup (sg_severity <$> ir_items r) /\
  (forall grp, grp ∈ ir_items r ->
     sg_count grp = Z.of_nat (length (sg_issues grp)) /\
     sg_count grp = countKey issueSeverity l (sg_severity grp) /\
     0 < sg_count grp /\
     Forall2 (fun issue item => issueItem issue = Ok item)
             (filter (fun issue => keyOf issueSeverity issue = sg_severity grp) l)
             (sg_issues grp)) /\
  (forall issue, issue ∈ l ->
     exists grp, grp ∈ ir_items r /\ sg_severity grp = keyOf issueSeverity issue) /\
  foldl (fun sum count => sum + count) 0 (sg_count <$> ir_items r) = ir_total r.
Proof.
  intros Hr Hl. unfold generateIssuesReport in Hr. rewrite Hl in Hr.
  destruct (foldM groupInto ∅ l) as [groups|e] eqn:Hg; [|done]. cbn [bind] in Hr.
  destruct (reportProject data) as [p|]; [|done]. injection Hr as <-.
  cbn [ir_total ir_bySeverity ir_items].
  pose proof (foldM_groupInto l groups Hg) as Hgroups.
  assert (forall k, Z.of_nat (length (or_empty (groups !! k))) = countKey issueSeverity l k)
    as Hlen.
  { intros k. destruct (Hgroups k) as [Hitems _]. unfold countKey.
    by rewrite (Forall2_length _ _ _ Hitems). }
  assert (forall k, groups !! k = None <-> countKey issueSeverity l k = 0) as Hnone.
  { intros k. destruct (Hgroups k) as [_ ->]. unfold countKey.
    rewrite <- length_zero_iff_nil. lia. }
  assert ((fun v : list IssueItem => Z.of_nat (length v)) <$> groups
          = countBy issueSeverity l) as Hmap.
  { apply map_eq. intros k. rewrite lookup_fmap, countBy_lookup.
    destruct (groups !! k) as [v|] eqn:Hk; simpl.
    - rewrite decide_False.
      + f_equal. rewrite <- Hlen, Hk. done.
      + rewrite <- Hnone, Hk. done.
    - rewrite decide_True; [done|]. by apply Hnone. }
  split; [done|]. split; [|split; [|split; [|split]]].
  - f_equal. apply map_eq. intros k.
    rewrite (foldl_insert_keys
               (fun sev => Z.of_nat (length (or_empty (groups !! sev))))).
    rewrite lookup_empty, countBy_lookup, Hlen.
    destruct (decide (k ∈ Object.keys groups)) as [Hk|Hk];
      rewrite elem_of_keys in Hk.
    + rewrite decide_False; [done|]. rewrite <- Hnone. by destruct Hk as [v ->].
    + rewrite decide_True; [done|]. apply Hnone. by apply eq_None_not_Some.
  - rewrite <- list_fmap_compose. apply NoDup_fst_map_to_list.
  - intros grp Hin. apply list_elem_of_fmap in Hin as ([k v] & -> & Hin).
    apply elem_of_map_to_list in Hin. cbn [sg_count sg_issues sg_severity fst snd].
    destruct (Hgroups k) as [Hitems _]. specialize (Hlen k). specialize (Hnone k).
    rewrite Hin in Hitems, Hlen, Hnone. cbn [or_empty] in Hitems, Hlen.
    split; [done|]. split; [done|]. split; [|done].
    pose proof (countKey_nonneg issueSeverity l k).
    destruct (decide (countKey issueSeverity l k = 0)) as [Hz|Hz]; [|lia].
    by apply Hnone in Hz.
  - intros issue Hin. set (k := keyOf issueSeverity issue).
    destruct (groups !! k) as [v|] eqn:Hk.
    + exists {| sg_severity := k; sg_count := Z.of_nat (length v); sg_issues := v |}.
      split; [|done]. apply list_elem_of_fmap. exists (k, v). split; [done|].
      by apply elem_of_map_to_list.
    + exfalso. destruct (Hgroups k) as [_ Hempty]. apply Hempty in Hk.
      assert (issue ∈ filter (fun i => keyOf issueSeverity i = k) l) as Hf
        by (by apply list_elem_of_filter).
      rewrite Hk in Hf. by apply elem_of_nil in Hf.
  - rewrite <- list_fmap_compose. rewrite <- (sumCounts_countBy issueSeverity l), <- Hmap.
    by rewrite sumCounts_fmap.
Qed.

Lemma generateIssuesReport_groups_witness :
  exists r,
    generateIssuesReport
      (reportOf [] (Some [issueOf (Some "MAJOR") (Some "a.js");
                          issueOf None (Some "b.js");
                          issueOf (Some "MAJOR") (Some "c.js")])) = Ok r /\
    ir_total r = 3 /\
    ir_bySeverity r
    = Some (countBy issueSeverity [issueOf (Some "MAJOR") (Some "a.js");
                                   issueOf None (Some "b.js");
                                   issueOf (Some "MAJOR") (Some "c.js")]) /\
    foldl (fun sum count => sum + count) 0 (sg_count <$> ir_items r) = 3.
Proof.
  destruct (generateIssuesReport
              (reportOf [] (Some [issueOf (Some "MAJOR") (Some "a.js");
                                  issueOf None (Some "b.js");
                                  issueOf (Some "MAJOR") (Some "c.js")])))
    as [r|e] eqn:Hr.
  - destruct (generateIssuesReport_groups _ r _ Hr eq_refl)
      as (Ht & Hby & _ & _ & _ & Hsum).
    exists r. split; [reflexivity|]. split; [exact Ht|]. split; [exact Hby|].
    rewrite Hsum. exact Ht.
  - exfalso.
    assert (exists r, generateIssuesReport
                        (reportOf [] (Some [issueOf (Some "MAJOR") (Some "a.js");
                                            issueOf None (Some "b.js");
                                            issueOf (Some "MAJOR") (Some "c.js")])) = Ok r)
      as [r Hok].
    { unfold generateIssuesReport. cbn [reportOf reportIssues reportProject].
      destruct (foldM_groupInto_all [issueOf (Some "MAJOR") (Some "a.js");
                                     issueOf None (Some "b.js");
                                     issueOf (Some "MAJOR") (Some "c.js")])
        as [groups ->]; [|by eexists].
      intros issue Hin. elem_of_cases Hin ltac:(by rewrite Hin). }
    rewrite Hok in Hr. discriminate Hr.
Defined.

(** * Properties of the formatter *)

(** ** [toTextReport] *)

Lemma groupIssue_Ok (groups groups' : gmap string (list FullIssue)) (issue : FullIssue) :
  groupIssue groups issue = Ok groups' ->
  (keyOf issueSeverity issue ∉ prototypeNames) /\
  forall k,
    groups' !! k =
      if decide (keyOf issueSeverity issue = k)
      then Some (or_empty (groups !! k) ++ [issue])%list
      else groups !! k.
Proof.
  unfold groupIssue. fold (keyOf issueSeverity issue).
  set (sev := keyOf issueSeverity issue).
  case_bool_decide as Hp; [done|]. intros [= <-]. split; [done|]. intros k.
  destruct (groups !! sev) as [v|] eqn:Hsev; cbv zeta.
  - rewrite lookup_insert, Hsev.
    destruct (decide (sev = k)) as [<-|]; [by rewrite Hsev|done].
  - rewrite lookup_insert_eq, lookup_insert. cbn [or_empty].
    destruct (decide (sev = k)) as [<-|Hk]; [by rewrite Hsev|].
    by rewrite lookup_insert_ne.
Qed.

Lemma groupIssue_Throw (groups : gmap string (list FullIssue)) (issue : FullIssue) e :
  groupIssue groups issue = Throw e ->
  e = TypeError /\ keyOf issueSeverity issue ∈ prototypeNames.
Proof.
  unfold groupIssue. fold (keyOf issueSeverity issue).
  case_bool_decide as Hp; [|done]. by intros [= <-].
Qed.

(** The groups of [toTextReport]: under each key the issues filed under
    it, and no entry for a key without issues; no issue is filed under
    the name of an inherited member. *)
Lemma foldM_groupIssue (l : list FullIssue) (groups : gmap string (list FullIssue)) :
  foldM groupIssue ∅ l = Ok groups ->
  (forall issue, issue ∈ l -> keyOf issueSeverity issue ∉ prototypeNames) /\
  forall k,
    groups !! k =
      match filter (fun issue => keyOf issueSeverity issue = k) l with
      | [] => None
      | group => Some group
      end.
Proof.
  revert groups. induction l as [|issue l IH] using rev_ind; intros groups.
  - intros [= <-]. split; [|done]. intros issue Hin. by apply elem_of_nil in Hin.
  - rewrite foldM_snoc.
    destruct (foldM groupIssue ∅ l) as [groups0|e]; [|done]. cbn [bind].
    intros Hg. apply groupIssue_Ok in Hg as [Hp Hg].
    destruct (IH groups0 eq_refl) as [Hall Hl]. split.
    + intros i Hin. apply elem_of_app in Hin as [Hin|Hin]; [by apply Hall|].
      by apply list_elem_of_singleton in Hin as ->.
    + intros k. rewrite Hg, filter_app, filter_cons, filter_nil.
      destruct (decide (keyOf issueSeverity issue = k)) as [Hk|Hk].
      * rewrite Hl. by destruct (filter _ l).
      * by rewrite Hl, app_nil_r.
Qed.

Lemma foldM_groupIssue_Throw (l : list FullIssue) (e : Exception) :
  foldM groupIssue ∅ l = Throw e ->
  e = TypeError /\
  exists issue, issue ∈ l /\ keyOf issueSeverity issue ∈ prototypeNames.
Proof.
  induction l as [|issue l IH] using rev_ind; [done|].
  rewrite foldM_snoc.
  destruct (foldM groupIssue ∅ l) as [groups0|e'] eqn:Hl; cbn [bind].
  - intros Hg. apply groupIssue_Throw in Hg as [-> Hp]. split; [done|].
    exists issue. split; [|done]. apply elem_of_app. right. left.
  - intros [= <-]. destruct (IH eq_refl) as (-> & i & Hin & Hp).
    split; [done|]. exists i. split; [|done]. apply elem_of_app. by left.
Qed.

(** [toTextReport] accepts only the quality report of the API client, and
    only when its project, gate and measures are there and no issue is
    filed under the name of a member of [Object.prototype]; for
    everything that is not such a report with project, gate and measures
    (a comparison, a summary, detailed or issues report, an array of
    measures) it throws the error ["無效的報告資料"]; the only other
    exception is the [TypeError] of an issue filed under such a name,
    where [groups[severity].push] is not a function. *)
Theorem toTextReport_accepts (now : string) (data : Data) :
  ((exists text, toTextReport now data = Ok text) <->
   exists d, data = DataReport d /\ reportProject d <> None /\
             reportGate d <> None /\ reportMeasures d <> None /\
             forall issue, issue ∈ or_empty (reportIssues d) ->
                           keyOf issueSeverity issue ∉ prototypeNames) /\
  (forall e, toTextReport now data = Throw e ->
     (e = Error invalidReportData /\
      ~ exists d, data = DataReport d /\ reportProject d <> None /\
                  reportGate d <> None /\ reportMeasures d <> None) \/
     (e = TypeError /\
      exists d issue, data = DataReport d /\ issue ∈ or_empty (reportIssues d) /\
                      keyOf issueSeverity issue ∈ prototypeNames)).
Proof.
  destruct data as [d| | | | |];
    try (split; [split; [by intros [text Ht]|by intros (d & Hd & _)]|];
         intros e [= <-]; left; split; [done|]; by intros (d & Hd & _)).
  cbn [toTextReport].
  destruct (reportProject d) as [p|] eqn:Hp;
    [|split; [split; [by intros [text Ht]|intros (d' & [= <-] & ? & _); congruence]|];
      intros e [= <-]; left; split; [done|]; intros (d' & [= <-] & ? & _); congruence].
  destruct (reportGate d) as [g|] eqn:Hg;
    [|split; [split; [by intros [text Ht]|intros (d' & [= <-] & _ & ? & _); congruence]|];
      intros e [= <-]; left; split; [done|]; intros (d' & [= <-] & _ & ? & _); congruence].
  destruct (reportMeasures d) as [ms|] eqn:Hm;
    [|split; [split; [by intros [text Ht]|intros (d' & [= <-] & _ & _ & ? & _); congruence]|];
      intros e [= <-]; left; split; [done|];
      intros (d' & [= <-] & _ & _ & ?); congruence].
  cbv zeta.
  destruct (reportIssues d) as [[|issue rest]|] eqn:Hi; cbn [or_empty].
  - split; [|done]. split; [|by eexists]. intros _. exists d.
    rewrite Hp, Hg, Hm, Hi. repeat (split; [done|]).
    intros i Hin. by apply elem_of_nil in Hin.
  - destruct (foldM groupIssue ∅ (issue :: rest)) as [groups|e'] eqn:Hf; cbn [bind].
    + split; [|done]. split; [|by eexists]. intros _. exists d.
      rewrite Hp, Hg, Hm, Hi. repeat (split; [done|]).
      by apply (foldM_groupIssue _ groups).
    + apply foldM_groupIssue_Throw in Hf as (-> & i & Hin & Hproto). split.
      * split; [by intros [text Ht]|]. intros (d' & [= <-] & _ & _ & _ & Hall).
        rewrite Hi in Hall. by destruct (Hall i Hin).
      * intros e [= <-]. right. split; [done|]. exists d, i. by rewrite Hi.
  - split; [|done]. split; [|by eexists]. intros _. exists d.
    rewrite Hp, Hg, Hm, Hi. repeat (split; [done|]).
    intros i Hin. by apply elem_of_nil in Hin.
Qed.

(** A comparison is rejected with the error of the formatter. *)
Lemma toTextReport_accepts_witness :
  toTextReport "now" (DataComparison (compareQualityData emptySnapshot emptySnapshot))
  = Throw (Error invalidReportData).
Proof.
  destruct (toTextReport "now"
              (DataComparison (compareQualityData emptySnapshot emptySnapshot)))
    as [text|e] eqn:Ht.
  - destruct (proj1 (proj1 (toTextReport_accepts _ _)) (ex_intro _ text Ht))
      as (d & Hd & _). discriminate Hd.
  - destruct (proj2 (toTextReport_accepts _ _) e Ht) as [[-> _]|(_ & d & i & Hd & _)].
    + reflexivity.
    + discriminate Hd.
Defined.

Lemma append_nil_r (s : string) : s ++ EmptyString = s.
Proof. induction s as [|c s IH]; [done|exact (f_equal (String c) IH)]. Qed.

Lemma append_assoc (s1 s2 s3 : string) : (s1 ++ s2) ++ s3 = s1 ++ s2 ++ s3.
Proof. induction s1 as [|c s1 IH]; [done|exact (f_equal (String c) IH)]. Qed.

Lemma severityText_expected (l : list FullIssue) groups (report sev : string) :
  foldM groupIssue ∅ l = Ok groups ->
  severityText groups report sev = report ++ expectedSeverityLine l sev.
Proof.
  intros Hg. apply foldM_groupIssue in Hg as [_ Hg].
  unfold severityText, expectedSeverityLine, countKey. rewrite Hg.
  destruct (filter _ l) as [|issue group] eqn:Hf.
  - by rewrite decide_True, append_nil_r.
  - rewrite decide_False by (simpl; lia). done.
Qed.

(** The text report of a quality report is the text report of the same
    data without issues, followed by the section about the issues: none
    when there is no issue; otherwise its title and, for each of
    [BLOCKER], [CRITICAL], [MAJOR], [MINOR], [INFO] in this order, a line
    with the number of issues of that severity when there is at least one.
    Issues of any other severity, or of none, appear nowhere in the text. *)
Theorem toTextReport_issue_section (now : string) (d : QualityReport) (text : string) :
  toTextReport now (DataReport d) = Ok text ->
  exists text0,
    toTextReport now (DataReport (withoutIssues d)) = Ok text0 /\
    text = text0 ++ expectedIssueSection (or_empty (reportIssues d)).
Proof.
  cbn [toTextReport withoutIssues reportProject reportGate reportMeasures reportIssues].
  destruct (reportProject d) as [p|]; [|done].
  destruct (reportGate d) as [g|]; [|done].
  destruct (reportMeasures d) as [ms|]; [|done].
  cbv zeta.
  destruct (reportIssues d) as [[|issue rest]|]; cbn [or_empty expectedIssueSection].
  - intros [= <-]. eexists. split; [reflexivity|]. by rewrite append_nil_r.
  - destruct (foldM groupIssue ∅ (issue :: rest)) as [groups|e] eqn:Hg; [|done].
    cbn [bind]. intros [= <-]. eexists. split; [reflexivity|].
    unfold severities. cbn [foldl].
    rewrite !(severityText_expected (issue :: rest) groups) by done.
    unfold expectedSeverityLines, severities.
    cbn [foldr]. by rewrite !append_assoc, append_nil_r.
  - intros [= <-]. eexists. split; [reflexivity|]. by rewrite append_nil_r.
Qed.

Lemma toTextReport_issue_section_witness :
  exists text0,
    toTextReport "now" (DataReport (withoutIssues
      (reportOf [] (Some [issueOf (Some "MAJOR") None; issueOf (Some "TRIVIAL") None;
                          issueOf (Some "MAJOR") None])))) = Ok text0 /\
    toTextReport "now" (DataReport
      (reportOf [] (Some [issueOf (Some "MAJOR") None; issueOf (Some "TRIVIAL") None;
                          issueOf (Some "MAJOR") None])))
    = Ok (text0 ++ newline ++ "## 問題摘要" ++ newline ++ newline
                ++ "- MAJOR: 2 個問題" ++ newline).
Proof.
  destruct (toTextReport_issue_section "now"
              (reportOf [] (Some [issueOf (Some "MAJOR") None;
                                  issueOf (Some "TRIVIAL") None;
                                  issueOf (Some "MAJOR") None])) _ eq_refl)
    as (text0 & H0 & Htext).
  exists text0. split; [exact H0|].
  etrans; [exact (f_equal Ok Htext)|]. vm_compute. reflexivity.
Defined.

(** ** [saveToFile] *)

Lemma inheritedText_truthy (k : string) :
  or_string (Some (inheritedText k)) ".json" = inheritedText k.
Proof.
  unfold inheritedText.
  by destruct (String.eqb k "__proto__"), (String.eqb k "constructor").
Qed.

Lemma extensions_lookup (format : string) :
  or_string (textOf extensions format) ".json" = extensionOf format.
Proof.
  unfold textOf, extensions, extensionOf. rewrite !lookup_insert, lookup_empty.
  destruct (String.eqb_spec format "csv") as [->|Hcsv]; [done|].
  destruct (String.eqb_spec format "text") as [->|Htext]; [done|].
  rewrite (decide_False (P := "text" = format)) by congruence.
  rewrite (decide_False (P := "csv" = format)) by congruence.
  destruct (decide ("json" = format)) as [<-|Hjson]; [reflexivity|].
  case_bool_decide; [apply inheritedText_truthy|done].
Qed.

(** Outside the names of the inherited members, the extension is [.csv],
    [.txt] or [.json]. *)
Lemma extensionOf_plain (format : string) :
  format ∉ prototypeNames -> extensionOf format = plainExtension format.
Proof.
  intros Hp. unfold extensionOf, plainExtension.
  by rewrite (bool_decide_eq_false_2 _ Hp).
Qed.

Lemma saveToFile_eq env config data filename format headers :
  saveToFile env config data filename format headers =
    match (if existsSync env (outputDir config) then None
           else mkdirSync env (outputDir config)) with
    | Some e => ([], Throw e)
    | None =>
        match contentOf env data format headers with
        | Throw e => (madeDirectory env config, Throw e)
        | Ok content =>
            match writeFileSync env (savedPath env config filename format) content with
            | Some e => (madeDirectory env config, Throw e)
            | None =>
                ((madeDirectory env config
                    ++ [WriteFile (savedPath env config filename format) content])%list,
                 Ok (savedPath env config filename format))
            end
        end
    end.
Proof.
  unfold saveToFile, contentOf, savedPath, madeDirectory. rewrite extensions_lookup.
  by destruct (existsSync env (outputDir config)).
Qed.

Lemma filter_isWrite_madeDirectory env config :
  filter isWrite (madeDirectory env config) = [].
Proof. unfold madeDirectory. by destruct (existsSync env (outputDir config)). Qed.

Lemma saveToFile_Ok env config data filename format headers trace p :
  saveToFile env config data filename format headers = (trace, Ok p) <->
  directoryReady env (outputDir config) /\
  p = savedPath env config filename format /\
  exists content,
    contentOf env data format headers = Ok content /\
    writeFileSync env p content = None /\
    trace = (madeDirectory env config ++ [WriteFile p content])%list.
Proof.
  rewrite saveToFile_eq. unfold directoryReady. split.
  - destruct (existsSync env (outputDir config)) eqn:He.
    + destruct (contentOf env data format headers) as [content|e]; [|done].
      destruct (writeFileSync env _ content) eqn:Hw; [done|].
      intros [= <- <-]. split; [by left|]. split; [done|]. by exists content.
    + destruct (mkdirSync env (outputDir config)) eqn:Hm; [done|].
      destruct (contentOf env data format headers) as [content|e]; [|done].
      destruct (writeFileSync env _ content) eqn:Hw; [done|].
      intros [= <- <-]. split; [by right|]. split; [done|]. by exists content.
  - intros (Hdir & -> & content & -> & -> & ->).
    destruct (existsSync env (outputDir config)); [done|].
    by destruct Hdir as [ | -> ].
Qed.

Lemma saveToFile_Throw env config data filename format headers trace e :
  saveToFile env config data filename format headers = (trace, Throw e) ->
  filter isWrite trace = [].
Proof.
  rewrite saveToFile_eq.
  destruct (if existsSync env (outputDir config) then None
            else mkdirSync env (outputDir config)); [by intros [= <- _]|].
  destruct (contentOf env data format headers) as [content|e'].
  - destruct (writeFileSync env _ content); [|done].
    intros [= <- _]. apply filter_isWrite_madeDirectory.
  - intros [= <- _]. apply filter_isWrite_madeDirectory.
Qed.

(** When the content cannot be computed, [saveToFile] throws. *)
Lemma saveToFile_no_content env config data filename format headers e :
  contentOf env data format headers = Throw e ->
  exists trace e',
    saveToFile env config data filename format headers = (trace, Throw e') /\
    (directoryReady env (outputDir config) -> e' = e).
Proof.
  intros Hc. rewrite saveToFile_eq, Hc. unfold directoryReady.
  destruct (existsSync env (outputDir config)); [by eexists _, _|].
  destruct (mkdirSync env (outputDir config)) as [e'|]; [|by eexists _, _].
  eexists _, _. split; [done|]. by intros [|].
Qed.




(** * Properties of the commands *)

(** ** [compareData] *)

Lemma falsy_false (v : option string) :
  falsy v = false <-> exists s, v = Some s /\ s <> EmptyString.
Proof.
  destruct v as [[|c s]|]; cbn; split; try done.
  - by intros (s & [= <-] & Hs).
  - intros _. by eexists.
  - by intros (s & [=] & _).
Qed.

Lemma savedPath_plain env config filename format :
  format ∉ prototypeNames ->
  savedPath env config filename format
  = pathJoin env (outputDir config) (filename ++ plainExtension format).
Proof. intros Hp. unfold savedPath. by rewrite extensionOf_plain. Qed.





Lemma saveToFile_Throw_cases env config data filename format headers trace e :
  saveToFile env config data filename format headers = (trace, Throw e) ->
  (existsSync env (outputDir config) = false /\ mkdirSync env (outputDir config) = Some e) \/
  contentOf env data format headers = Throw e \/
  exists content, contentOf env data format headers = Ok content /\
                  writeFileSync env (savedPath env config filename format) content = Some e.
Proof.
  rewrite saveToFile_eq.
  destruct (existsSync env (outputDir config)) eqn:He.
  - destruct (contentOf env data format headers) as [content|e'];
      [|intros [= _ <-]; by right; left].
    destruct (writeFileSync env _ content) eqn:Hw; [|done].
    intros [= _ <-]. right; right. by exists content.
  - destruct (mkdirSync env (outputDir config)) eqn:Hm; [intros [= _ <-]; by left|].
    destruct (contentOf env data format headers) as [content|e'];
      [|intros [= _ <-]; by right; left].
    destruct (writeFileSync env _ content) eqn:Hw; [|done].
    intros [= _ <-]. right; right. by exists content.
Qed.




(** ** [generateReport] *)







(** ** [fetchData] *)

Lemma saveToFile_rejected env config data filename format headers e0 :
  contentOf env data format headers = Throw e0 ->
  exists trace e,
    saveToFile env config data filename format headers = (trace, Throw e) /\
    filter isWrite trace = [] /\
    (e = e0 \/
     existsSync env (outputDir config) = false /\ mkdirSync env (outputDir config) = Some e).
Proof.
  intros Hc.
  destruct (saveToFile_no_content env config data filename format headers _ Hc)
    as (trace & e & Hs & _).
  exists trace, e. split; [done|]. split; [by apply saveToFile_Throw in Hs|].
  apply saveToFile_Throw_cases in Hs as [Hm|[Hc'|(content & Hc' & _)]].
  - by right.
  - left. congruence.
  - congruence.
Qed.

(** The save step of [fetchData]. *)
Lemma fetchData_save env config data filename format :
  match data with
  | DataArray items =>
      if String.eqb format "csv" then
        saveToFile env config data filename format (rowKeys (default [] (head items)))
      else saveToFile env config data filename format []
  | _ => saveToFile env config data filename format []
  end = saveToFile env config data filename format (fetchHeaders format data).
Proof.
  destruct data as [|[|item items]| | | |]; cbn [fetchHeaders]; try done;
    by destruct (String.eqb format "csv").
Qed.

Lemma fetchData_eq env config options :
  fetchData env config options =
    match (if negb (falsy (fo_metrics options)) then
             bind (getProjectMeasures env (fetchProjectKey config options)
                     (interpolate (fo_metrics options)))
                  (fun measures => Ok (DataArray measures))
           else
             bind (getFullQualityReport env (fetchProjectKey config options))
                  (fun report => Ok (DataReport report))) with
    | Throw e => ([], Failed "獲取資料失敗" e)
    | Ok data =>
        match saveToFile env config data (fetchFilename env config options)
                (fetchFormat config options)
                (fetchHeaders (fetchFormat config options) data) with
        | (trace, Ok filepath) =>
            (trace, Succeeded ("品質資料已儲存至: " ++ filepath) data filepath)
        | (trace, Throw e) => (trace, Failed "獲取資料失敗" e)
        end
    end.
Proof.
  unfold fetchData.
  fold (fetchProjectKey config options). fold (fetchFormat config options).
  fold (fetchFilename env config options).
  destruct (if negb (falsy (fo_metrics options)) then _ else _) as [data|e]; [|done].
  by rewrite fetchData_save.
Qed.

(** For a format that does not name a member of [Object.prototype],
    [fetchData] succeeds exactly when the API call succeeds (for the
    measures named by [metrics] when given, for the full quality report
    otherwise), the data can be put in the format, the output directory is
    there or can be made, and the file can be written.  The data returned
    is what the API returned; the one file written, at the path returned
    (the file name with the extension [.csv], [.txt] or [.json]), holds
    the data in the format, where the columns of the CSV are the
    properties of the first measure (none when there is no measure). *)
Theorem fetchData_succeeds env config options trace message data filepath :
  fetchFormat config options ∉ prototypeNames ->
  fetchData env config options = (trace, Succeeded message data filepath) <->
  ((falsy (fo_metrics options) = true /\
    exists report,
      getFullQualityReport env (fetchProjectKey config options) = Ok report /\
      data = DataReport report) \/
   (exists metrics measures,
      fo_metrics options = Some metrics /\ metrics <> EmptyString /\
      getProjectMeasures env (fetchProjectKey config options) metrics = Ok measures /\
      data = DataArray measures)) /\
  directoryReady env (outputDir config) /\
  filepath = pathJoin env (outputDir config)
               (fetchFilename env config options
                  ++ plainExtension (fetchFormat config options)) /\
  exists content,
    contentOf env data (fetchFormat config options)
      (fetchHeaders (fetchFormat config options) data) = Ok content /\
    writeFileSync env filepath content = None /\
    message = "品質資料已儲存至: " ++ filepath /\
    trace = (madeDirectory env config ++ [WriteFile filepath content])%list.
Proof.
  intros Hproto. rewrite fetchData_eq.
  rewrite <- (savedPath_plain env config (fetchFilename env config options)
                (fetchFormat config options) Hproto).
  split.
  - destruct (falsy (fo_metrics options)) eqn:Hm; cbn [negb].
    + destruct (getFullQualityReport env _) as [report|e] eqn:Hapi; cbn [bind]; [|done].
      destruct (saveToFile _ _ _ _ _ _) as [tr [p|e]] eqn:Hs; [|done].
      intros [= <- <- <- <-].
      apply saveToFile_Ok in Hs as (Hdir & -> & content & Hc & Hw & ->).
      split; [left; split; [done|by exists report]|].
      split; [done|]. split; [done|]. by exists content.
    + apply falsy_false in Hm as (metrics & Hm & Hm'). rewrite Hm.
      change (interpolate (Some metrics)) with metrics.
      destruct (getProjectMeasures env _ metrics) as [measures|e] eqn:Hapi;
        cbn [bind]; [|done].
      destruct (saveToFile _ _ _ _ _ _) as [tr [p|e]] eqn:Hs; [|done].
      intros [= <- <- <- <-].
      apply saveToFile_Ok in Hs as (Hdir & -> & content & Hc & Hw & ->).
      split; [right; by exists metrics, measures|].
      split; [done|]. split; [done|]. by exists content.
  - intros (Hdata & Hdir & Hp & content & Hc & Hw & -> & ->).
    assert (saveToFile env config data (fetchFilename env config options)
              (fetchFormat config options)
              (fetchHeaders (fetchFormat config options) data)
            = ((madeDirectory env config ++ [WriteFile filepath content])%list,
               Ok filepath)) as Hs.
    { apply saveToFile_Ok. split; [done|]. split; [done|]. by exists content. }
    destruct Hdata as [(Hm & report & Hapi & ->)|(metrics & measures & Hm & Hm' & Hapi & ->)].
    + rewrite Hm. cbn [negb]. rewrite Hapi. cbn [bind]. by rewrite Hs.
    + replace (falsy (fo_metrics options)) with false
        by (symmetry; apply falsy_false; by exists metrics).
      rewrite Hm. change (interpolate (Some metrics)) with metrics.
      cbn [negb]. rewrite Hapi. cbn [bind]. by rewrite Hs.
Qed.

Lemma fetchData_succeeds_witness :
  fetchData freshEnvironment sampleConfig (sampleFetch (Some "csv") (Some "bugs"))
  = ([Mkdir "output";
      WriteFile "output/quality.csv"
                ("metric,value" ++ newline ++ "bugs,3" ++ newline)],
     Succeeded "品質資料已儲存至: output/quality.csv"
               (DataArray [[("metric", SString "bugs"); ("value", SString "3")]])
               "output/quality.csv").
Proof.
  apply (proj2 (fetchData_succeeds freshEnvironment sampleConfig
                  (sampleFetch (Some "csv") (Some "bugs")) _ _ _ _
                  ltac:(intros Hin; elem_of_cases Hin ltac:(discriminate Hin)))).
  split.
  - right. exists "bugs", [[("metric", SString "bugs"); ("value", SString "3")]].
    by repeat split.
  - split; [by right|]. split; [done|].
    exists ("metric,value" ++ newline ++ "bugs,3" ++ newline). by repeat split.
Defined.

(** [fetchData] never succeeds, and writes no file, when the format does
    not fit the data fetched: [text] for the measures named by [metrics]
    (the text report needs the full quality report), or [csv] for the
    full quality report (the CSV needs an array).  The exception reported
    is that of the formatter, unless the API call failed or the output
    directory could not be made. *)
Theorem fetchData_format_mismatch env config options :
  (falsy (fo_metrics options) = false /\ fetchFormat config options = "text") \/
  (falsy (fo_metrics options) = true /\ fetchFormat config options = "csv") ->
  exists trace e,
    fetchData env config options = (trace, Failed "獲取資料失敗" e) /\
    filter isWrite trace = [] /\
    (e = Error (formatError (fetchFormat config options)) \/
     getProjectMeasures env (fetchProjectKey config options)
       (interpolate (fo_metrics options)) = Throw e \/
     getFullQualityReport env (fetchProjectKey config options) = Throw e \/
     existsSync env (outputDir config) = false /\ mkdirSync env (outputDir config) = Some e).
Proof.
  rewrite fetchData_eq. intros [[Hm Hf]|[Hm Hf]]; rewrite Hm, Hf; cbn [negb].
  - destruct (getProjectMeasures env _ _) as [measures|e0]; cbn [bind];
      [|exists [], e0; split; [done|]; split; [done|]; by right; left].
    destruct (saveToFile_rejected env config (DataArray measures)
                (fetchFilename env config options) "text"
                (fetchHeaders "text" (DataArray measures))
                (Error invalidReportData) eq_refl) as (trace & e & -> & Hw & He).
    exists trace, e. split; [done|]. split; [done|].
    destruct He as [He|He]; [by left|by do 3 right].
  - destruct (getFullQualityReport env _) as [report|e0]; cbn [bind];
      [|exists [], e0; split; [done|]; split; [done|]; by right; right; left].
    destruct (saveToFile_rejected env config (DataReport report)
                (fetchFilename env config options) "csv"
                (fetchHeaders "csv" (DataReport report))
                (Error csvNeedsArray) eq_refl) as (trace & e & -> & Hw & He).
    exists trace, e. split; [done|]. split; [done|].
    destruct He as [He|He]; [by left|by do 3 right].
Qed.

Lemma fetchData_format_mismatch_witness :
  exists trace e,
    fetchData sampleEnvironment sampleConfig (sampleFetch (Some "csv") None)
    = (trace, Failed "獲取資料失敗" e) /\
    filter isWrite trace = [].
Proof.
  destruct (fetchData_format_mismatch sampleEnvironment sampleConfig
              (sampleFetch (Some "csv") None) (or_intror (conj eq_refl eq_refl)))
    as (trace & e & H & Hw & _).
  by exists trace, e.
Defined.

(** * The CSV of [toCSV] *)

Lemma lineFeeds_app (a b : string) :
  lineFeeds (a ++ b) = (lineFeeds a + lineFeeds b)%nat.
Proof.
  induction a as [|c a IH]; [done|].
  change (lineFeeds (String c a ++ b))
    with ((if (c =? ascii_of_nat 10)%char then 1 else 0) + lineFeeds (a ++ b))%nat.
  change (lineFeeds (String c a))
    with ((if (c =? ascii_of_nat 10)%char then 1 else 0) + lineFeeds a)%nat.
  rewrite IH. lia.
Qed.

Lemma lineFeeds_join (l : list string) :
  (forall s, s ∈ l -> lineFeeds s = 0%nat) ->
  lineFeeds (join "," l) = 0%nat.
Proof.
  unfold join. induction l as [|x l IH]; intros Hall; [done|].
  assert (lineFeeds x = 0%nat) as Hx by (apply Hall; by left).
  destruct l as [|y l]; [done|].
  change (String.concat "," (x :: y :: l)) with (x ++ "," ++ String.concat "," (y :: l)).
  rewrite !lineFeeds_app, Hx, IH; [done|].
  intros s Hs. apply Hall. by right.
Qed.

Lemma lineFeeds_cell (item : Row) (header : string) :
  lineFeeds (scalarToString (csvCell item header)) = lineFeeds (rowText item header).
Proof.
  unfold csvCell, rowText.
  destruct (rowGet item header) as [[[|c s]|[|]| |]|]; cbn [orEmptyString scalarTruthy];
    try done.
  destruct (includesComma (String c s)); [|done].
  cbn [scalarToString]. rewrite !lineFeeds_app. change (lineFeeds doubleQuote) with 0%nat. lia.
Qed.

Lemma lineFeeds_csvRow (headers : list string) (item : Row) :
  (forall header, header ∈ headers -> lineFeeds (rowText item header) = 0%nat) ->
  lineFeeds (csvRow headers item) = 1%nat.
Proof.
  intros Hall. unfold csvRow. rewrite lineFeeds_app, lineFeeds_join; [done|].
  intros s Hs. apply list_elem_of_fmap in Hs as (v & -> & Hv).
  apply list_elem_of_fmap in Hv as (header & -> & Hh).
  rewrite lineFeeds_cell. by apply Hall.
Qed.

(** When no header and no text of a cell holds a line feed, the CSV of an
    array has one line for the headers and one line for each item, each
    ended by a line feed, whatever else the items hold. *)
Theorem toCSV_lines (items : list Row) (headers : list string) :
  (forall header, header ∈ headers -> lineFeeds header = 0%nat) ->
  (forall item header, item ∈ items -> header ∈ headers ->
                       lineFeeds (rowText item header) = 0%nat) ->
  exists csv,
    toCSV (DataArray items) headers = Ok csv /\
    lineFeeds csv = S (length items).
Proof.
  intros Hh Hitems. eexists. split; [reflexivity|].
  induction items as [|item items IH] using rev_ind.
  - cbn [foldl length]. by rewrite lineFeeds_app, lineFeeds_join.
  - rewrite foldl_app. cbn [foldl]. rewrite lineFeeds_app, IH, lineFeeds_csvRow.
    + rewrite length_app. cbn [length]. lia.
    + intros header Hin. apply Hitems; [|done]. apply elem_of_app. right. by left.
    + intros item' header Hin. apply Hitems. apply elem_of_app. by left.
Qed.

Lemma toCSV_lines_witness :
  exists csv,
    toCSV (DataArray [[("metric", SString "bugs"); ("value", SString "1,5")];
                      [("metric", SString "coverage")]])
          ["metric"; "value"] = Ok csv /\
    lineFeeds csv = 3%nat.
Proof.
  apply (toCSV_lines [[("metric", SString "bugs"); ("value", SString "1,5")];
                      [("metric", SString "coverage")]] ["metric"; "value"]).
  - intros header Hin. repeat (apply elem_of_cons in Hin as [->|Hin]); try done.
    by apply elem_of_nil in Hin.
  - intros item header Hi Hin.
    repeat (apply elem_of_cons in Hi as [->|Hi]);
      try (by apply elem_of_nil in Hi);
      repeat (apply elem_of_cons in Hin as [->|Hin]); try done;
      by apply elem_of_nil in Hin.
Defined.
